(** * WPCS report generator: the aggregation pipeline of [report_app.py]

    A shallow embedding of [generate_report] (src/report_app.py) and the
    properties of its loader, transformer and renderer stages.

    Scope of the embedding.
    - A loaded table is a [DataFrame]: an ordered list of named, typed columns
      ([Object] text columns and [Int64] integer columns), with unique column
      names as pandas' readers produce them.  The work-date and machine
      columns are text, the shift column is carried along as it is, and the
      two quantity columns hold integer counts of dtype [int64], whose sums
      are taken in 64-bit arithmetic and wrap around as NumPy's do.  Frames
      with other dtypes in these columns are outside the development
      ([TypeError] stands for them; the program raises no such error).
    - [pd.to_datetime(..., errors='coerce')] is a parameter of the
      transformer; it sees the whole column, as the library may infer a format
      from it.  A timestamp is the number of nanoseconds since the epoch and
      [None] is NaT.
    - Percentages are binary64 numbers, computed with the operations of
      [SpecFloat]: the per-machine ratio with Python's [int / int], [float *
      int] and [round(float, 2)], the grand-total ratio with NumPy's scalar
      operations, as the operands are NumPy scalars there.
    - [DataFrame.apply(..., axis=1)] is the row-wise map, also on a frame
      without rows.
    - Reading, writing and the message boxes are events of a log; the readers
      and the faults of the renderer are parameters, and showing a message
      box does not raise.
    - The sheet is the list of its written cells, rows and columns counted
      from 1; a cell never written reads [None].  The text Python's [str]
      gives for a number or a date is a parameter of the column widths.
    - The window is the text of its two entry fields; a session is a
      sequence of presses on its three buttons, the fields not being edited
      by hand. *)

From Stdlib Require Import ZArith List Bool Lia.
From Stdlib Require Import Ascii String.
From Stdlib Require Import SpecFloat.
From Stdlib Require Import DecimalString.
From Stdlib Require Import OrderedTypeEx Sorted Permutation.
Import ListNotations.

Local Open Scope string_scope.
Local Open Scope list_scope.
Local Open Scope Z_scope.

(** ** Strings: [str.split], [str.lower], [f"{i:02d}"] *)

Module Str.

(** [s.split(c)] for a one-character separator: never the empty list. *)
Fixpoint split (c : ascii) (s : string) : list string :=
  match s with
  | EmptyString => [EmptyString]
  | String a r =>
      if Ascii.eqb a c then EmptyString :: split c r
      else match split c r with
           | h :: t => String a h :: t
           | [] => [String a EmptyString]
           end
  end.

(** [l[-1]] on a list of strings. *)
Definition last (l : list string) : string := List.last l EmptyString.

Definition is_upper (a : ascii) : bool :=
  let n := nat_of_ascii a in (Nat.leb 65 n && Nat.leb n 90)%bool.

Definition lower_ascii (a : ascii) : ascii :=
  if is_upper a then ascii_of_nat (nat_of_ascii a + 32) else a.

(** [s.lower()].  Strings are byte strings here; bytes outside ASCII are
    left alone, and no character outside ASCII lowers to one of the
    letters of [xlsx], [xls] or [csv], so the extension test of the loader
    is the one Python makes. *)
Fixpoint lower (s : string) : string :=
  match s with
  | EmptyString => EmptyString
  | String a r => String (lower_ascii a) (lower r)
  end.

Fixpoint mem (x : string) (l : list string) : bool :=
  match l with
  | [] => false
  | y :: r => (String.eqb x y || mem x r)%bool
  end.

Definition has_char (c : ascii) (s : string) : bool :=
  existsb (Ascii.eqb c) (list_ascii_of_string s).

(** [f"{i:02d}"] for a natural number: decimal digits, padded with zeros
    on the left up to width two. *)
Definition format_02d (i : nat) : string :=
  let d := NilEmpty.string_of_uint (Nat.to_uint i) in
  if Nat.ltb (String.length d) 2 then String.append "0" d else d.

End Str.

(** ** Binary64 arithmetic *)

Module Float64.

Definition prec : Z := 53.
Definition emax : Z := 1024.

Definition float := spec_float.

Definition zero : float := S754_zero false.

(** An integer as an exact, possibly not normalised, binary number. *)
Definition exact_int (n : Z) : float :=
  match n with
  | Z0 => S754_zero false
  | Zpos p => S754_finite false p 0
  | Zneg p => S754_finite true p 0
  end.

(** Conversion of an integer to the nearest binary64 number. *)
Definition of_int (n : Z) : float := binary_normalize prec emax n 0 false.

Definition mul (x y : float) : float := SFmul prec emax x y.
Definition div (x y : float) : float := SFdiv prec emax x y.

(** [x >= y] on binary64 numbers: false as soon as one side is NaN. *)
Definition geb (x y : float) : bool := SFleb y x.

(** The correctly rounded quotient of two integers, the value of
    Python's [a / b] on [int] operands when [b] is not zero. *)
Definition int_truediv (a b : Z) : float := div (exact_int a) (exact_int b).

(** The binary64 number nearest to [h / 100]: what the decimal literal
    with two places denotes, and what reading a two-place decimal gives. *)
Definition of_hundredths (h : Z) : float := int_truediv h 100.

(** [n / d] rounded to the nearest integer, ties to even ([0 <= n], [0 < d]). *)
Definition div_half_even (n d : Z) : Z :=
  let q := n / d in
  let r := n mod d in
  match 2 * r ?= d with
  | Lt => q
  | Gt => q + 1
  | Eq => if Z.even q then q else q + 1
  end.

(** The magnitude [m * 2^e] scaled by [k] and rounded to the nearest
    integer, ties to even. *)
Definition scaled_nearest (k : Z) (m : positive) (e : Z) : Z :=
  if 0 <=? e then Z.pos m * k * 2 ^ e
  else div_half_even (Z.pos m * k) (2 ^ (- e)).

Definition signed (s : bool) (n : Z) : Z := if s then - n else n.

(** Python's [round(x, 2)] on a [float]: the exact value of [x] is rounded
    to two decimal places (ties to even) and the decimal is read back as
    the nearest binary64 number; NaN, infinities and zeros round to
    themselves. *)
Definition py_round2 (x : float) : float :=
  match x with
  | S754_finite s m e =>
      match scaled_nearest 100 m e with
      | Z0 => S754_zero s
      | h => of_hundredths (signed s h)
      end
  | _ => x
  end.

(** [np.rint]: the nearest integer, ties to even, sign of zero kept. *)
Definition rint (x : float) : float :=
  match x with
  | S754_finite s m e =>
      if 0 <=? e then x
      else binary_normalize prec emax (signed s (scaled_nearest 1 m e)) 0 s
  | _ => x
  end.

(** NumPy's [round(x, 2)] on a [float64] scalar:
    [np.true_divide(np.rint(x * 100), 100)]. *)
Definition np_round2 (x : float) : float :=
  div (rint (mul x (of_int 100))) (of_int 100).

(** NumPy's [a / b] on [int64] scalars: both operands are converted to
    binary64 and divided. *)
Definition np_truediv (a b : Z) : float := div (of_int a) (of_int b).

End Float64.

(** ** Tables *)

(** A cell of a column that is carried along without being computed on. *)
Inductive value :=
  | Str (s : string)
  | Int (n : Z).

(** A column with its dtype. *)
Inductive Series :=
  | Object (cells : list string)
  | Int64 (cells : list Z).

(** A frame: its named columns, in order. *)
Definition DataFrame := list (string * Series).

Inductive Exception :=
  | ValueError (msg : string)
  | KeyError (missing : list string)
  | ZeroDivisionError
  | TypeError
  | OSError (msg : string).

Module Frame.

Definition columns (df : DataFrame) : list string := map fst df.

Fixpoint get (df : DataFrame) (name : string) : option Series :=
  match df with
  | [] => None
  | (n, s) :: r => if String.eqb n name then Some s else get r name
  end.

(** [df[keys]]: the listed columns in the listed order; the labels that
    are not columns of [df] are reported in a [KeyError]. *)
Definition getitem (df : DataFrame) (keys : list string)
  : Exception + DataFrame :=
  match filter (fun k => negb (Str.mem k (columns df))) keys with
  | [] =>
      inr (flat_map (fun k => match get df k with
                              | Some s => [(k, s)]
                              | None => []
                              end) keys)
  | missing => inl (KeyError missing)
  end.

Fixpoint lookup (m : list (string * string)) (k : string) : option string :=
  match m with
  | [] => None
  | (a, b) :: r => if String.eqb a k then Some b else lookup r k
  end.

(** [df.rename(columns=mapper)]: labels outside the mapper are kept. *)
Definition rename (mapper : list (string * string)) (df : DataFrame)
  : DataFrame :=
  map (fun c => (match lookup mapper (fst c) with
                 | Some n => n
                 | None => fst c
                 end, snd c)) df.

Definition cells (s : Series) : list value :=
  match s with
  | Object l => map Str l
  | Int64 l => map Int l
  end.

End Frame.

(** One row of the five consumed columns; [D] is the type of the work-date
    field: text as loaded, [option Z] once parsed, [Z] once the NaT rows are
    dropped. *)
Record Row (D : Type) := mkRow {
  work_date : D;
  shift : value;
  machine : string;
  worked_qty : Z;
  wpc_qty : Z
}.

Arguments mkRow {D}.
Arguments work_date {D}.
Arguments shift {D}.
Arguments machine {D}.
Arguments worked_qty {D}.
Arguments wpc_qty {D}.

Definition set_date {D E : Type} (r : Row D) (d : E) : Row E :=
  mkRow d (shift r) (machine r) (worked_qty r) (wpc_qty r).

(** One row of the machine-level table. *)
Record MachineSummary := mkSummary {
  ms_machine : string;
  last_work_date : Z;
  ms_worked_qty : Z;
  ms_wpc_qty : Z;
  wpcs_pct : Float64.float
}.

(** The one row of the total table. *)
Record GrandTotal := mkTotal {
  total_worked_qty : Z;
  total_wpc_qty : Z;
  total_wpcs_percent : Float64.float
}.

Record Report := mkReport {
  summary_df : list MachineSummary;
  summary_total : GrandTotal
}.

(** A 64-bit signed integer after an operation: the result modulo 2^64,
    between -2^63 and 2^63 - 1. *)
Definition wrap64 (z : Z) : Z := (z + 2 ^ 63) mod 2 ^ 64 - 2 ^ 63.

(** [Series.sum()] and a group's [sum()] on an [int64] column: the cells are
    added one after the other in 64-bit arithmetic, which wraps around. *)
Definition sum (l : list Z) : Z :=
  fold_left (fun acc x => wrap64 (acc + x)) l 0.

(** The sum of the same numbers as a mathematical integer. *)
Definition exact_sum (l : list Z) : Z := fold_right Z.add 0 l.

(** The values an [int64] cell can hold. *)
Definition int64_range (z : Z) : Prop := - 2 ^ 63 <= z < 2 ^ 63.

(** ** Column selection (lines 28-36) *)

Definition column_map : list (string * string) :=
  [ ("Work date", "work date");
    ("Shift", "shift");
    ("Machine", "machine");
    ("Q`ty", "worked Q'ty");
    ("WPCS Qty", "WPC qty") ].

Definition required_columns : list string := map fst column_map.

(** [df[list(column_map.keys())].rename(columns=column_map)] *)
Definition df_selected (df : DataFrame) : Exception + DataFrame :=
  match Frame.getitem df required_columns with
  | inl e => inl e
  | inr sel => inr (Frame.rename column_map sel)
  end.

Fixpoint zip_rows (d : list string) (s : list value) (m : list string)
    (q w : list Z) : list (Row string) :=
  match d, s, m, q, w with
  | d0 :: d', s0 :: s', m0 :: m', q0 :: q', w0 :: w' =>
      mkRow d0 s0 m0 q0 w0 :: zip_rows d' s' m' q' w'
  | _, _, _, _, _ => []
  end.

(** The rows of the selected frame, read through its canonical labels.
    Text dates and machines and integer quantities are covered.  Every other
    frame is outside the development: [TypeError] marks it, and is not an
    error of the program, which goes on with such frames. *)
Definition rows_of (sel : DataFrame) : Exception + list (Row string) :=
  match Frame.get sel "work date", Frame.get sel "shift",
        Frame.get sel "machine", Frame.get sel "worked Q'ty",
        Frame.get sel "WPC qty" with
  | Some (Object d), Some s, Some (Object m), Some (Int64 q), Some (Int64 w) =>
      inr (zip_rows d (Frame.cells s) m q w)
  | _, _, _, _, _ => inl TypeError
  end.

(** Lines 28-36, then the rows of the result. *)
Definition selected_rows (df : DataFrame) : Exception + list (Row string) :=
  match df_selected df with
  | inl e => inl e
  | inr sel => rows_of sel
  end.

(** ** Machine allow-list (line 47) *)

Definition allowed_machines : list string :=
  map (fun i => String.append "A" (Str.format_02d i)) (seq 1 38).

(** ** Grouping *)

(** The keys of [groupby]: distinct, in ascending order. *)
Fixpoint insert_key (k : string) (ks : list string) : list string :=
  match ks with
  | [] => [k]
  | k' :: r =>
      match String.compare k k' with
      | Lt => k :: ks
      | Eq => ks
      | Gt => k' :: insert_key k r
      end
  end.

Definition group_keys {D} (rows : list (Row D)) : list string :=
  fold_right insert_key [] (map machine rows).

Definition group {D} (rows : list (Row D)) (k : string) : list (Row D) :=
  filter (fun r => String.eqb (machine r) k) rows.

(** The maximum of a group's dates; a group is never empty. *)
Definition max_date (l : list Z) : Z :=
  match l with
  | [] => 0
  | d :: r => fold_left Z.max r d
  end.

(** [pd.merge(left, right, on="machine")]: the inner join, in the order of
    the left keys. *)
Definition merge (left : list (string * Z)) (right : list (string * (Z * Z)))
  : list (string * Z * (Z * Z)) :=
  flat_map (fun l =>
              map (fun r => (fst l, snd l, snd r))
                  (filter (fun r => String.eqb (fst r) (fst l)) right))
           left.

(** ** The derived ratio (lines 69-71 and 83) *)

(** Python's [a / b] on [int]s. *)
Definition py_truediv (a b : Z) : Exception + Float64.float :=
  if b =? 0 then inl ZeroDivisionError else inr (Float64.int_truediv a b).

(** The lambda of line 70, on the row's two quantities. *)
Definition wpcs_percent (wpc worked : Z) : Exception + Float64.float :=
  if negb (worked =? 0) then
    match py_truediv wpc worked with
    | inl e => inl e
    | inr q => inr (Float64.py_round2 (Float64.mul q (Float64.of_int 100)))
    end
  else inr Float64.zero.

(** Line 83, on the two NumPy totals. *)
Definition total_percent (wpc worked : Z) : Float64.float :=
  if negb (worked =? 0) then
    Float64.np_round2
      (Float64.mul (Float64.np_truediv wpc worked) (Float64.of_int 100))
  else Float64.zero.

(** [summary_df.apply(..., axis=1)]: the first exception raised by a row
    ends the whole application. *)
Fixpoint apply_percent (rows : list (string * Z * (Z * Z)))
  : Exception + list MachineSummary :=
  match rows with
  | [] => inr []
  | (m, d, (w, c)) :: rest =>
      match wpcs_percent c w with
      | inl e => inl e
      | inr p =>
          match apply_percent rest with
          | inl e => inl e
          | inr out => inr (mkSummary m d w c p :: out)
          end
      end
  end.

Definition threshold : Float64.float := Float64.of_int 20.

(** ** The transformer (lines 41-89) *)

Section Transformer.

(** [pd.to_datetime(column, errors='coerce')] at one cell of the column. *)
Variable to_datetime : list string -> string -> option Z.

(** Line 41. *)
Definition parse_dates (rows : list (Row string)) : list (Row (option Z)) :=
  let column := map work_date rows in
  map (fun r => set_date r (to_datetime column (work_date r))) rows.

(** Line 42. *)
Definition dropna (rows : list (Row (option Z))) : list (Row Z) :=
  flat_map (fun r => match work_date r with
                     | Some d => [set_date r d]
                     | None => []
                     end) rows.

(** Line 48. *)
Definition isin_allowed (rows : list (Row Z)) : list (Row Z) :=
  filter (fun r => Str.mem (machine r) allowed_machines) rows.

Definition df_filtered (rows : list (Row string)) : list (Row Z) :=
  isin_allowed (dropna (parse_dates rows)).

(** Lines 53-54. *)
Definition last_dates (rows : list (Row Z)) : list (string * Z) :=
  map (fun k => (k, max_date (map work_date (group rows k))))
      (group_keys rows).

(** Line 59. *)
Definition sum_qty (rows : list (Row Z)) : list (string * (Z * Z)) :=
  map (fun k => (k, (sum (map worked_qty (group rows k)),
                     sum (map wpc_qty (group rows k)))))
      (group_keys rows).

(** Lines 64-71: the machine-level table before the threshold. *)
Definition ratio_table (rows : list (Row string))
  : Exception + list MachineSummary :=
  let f := df_filtered rows in
  apply_percent (merge (last_dates f) (sum_qty f)).

(** Line 76. *)
Definition keep_above_threshold (t : list MachineSummary)
  : list MachineSummary :=
  filter (fun r => Float64.geb (wpcs_pct r) threshold) t.

(** Lines 81-89. *)
Definition totals (t : list MachineSummary) : GrandTotal :=
  let worked := sum (map ms_worked_qty t) in
  let wpc := sum (map ms_wpc_qty t) in
  mkTotal worked wpc (total_percent wpc worked).

Definition transform (rows : list (Row string)) : Exception + Report :=
  match ratio_table rows with
  | inl e => inl e
  | inr t =>
      let kept := keep_above_threshold t in
      inr (mkReport kept (totals kept))
  end.

(** Lines 28-89 on a loaded frame. *)
Definition pipeline (df : DataFrame) : Exception + Report :=
  match selected_rows df with
  | inl e => inl e
  | inr rows => transform rows
  end.

End Transformer.

(** ** Effects: the files read and written and the message boxes shown *)

Inductive event :=
  | ReadExcel (path : string)
  | ReadCsv (path : string)
  | WriteExcel (path : string) (r : Report)
  | WritePartial (path : string)
  | LoadWorkbook (path : string)
  | SaveWorkbook (path : string) (r : Report)
  | ShowInfo (output_file : string)
  | ShowError (e : Exception).

(** What the program does not decide: the parser of the date column, the two
    readers on the files present, and whether each step of the renderer goes
    through ([None]) or raises.  When the [ExcelWriter] block raises, the
    flag tells whether the writer was already open: leaving the block then
    still saves what the workbook holds, a partial file. *)
Record Env := mkEnv {
  to_datetime : list string -> string -> option Z;
  read_excel : string -> Exception + DataFrame;
  read_csv : string -> Exception + DataFrame;
  to_excel : string -> Report -> option (Exception * bool);
  load_workbook : string -> option Exception;
  save : string -> Report -> option Exception
}.

(** A computation logs events and ends with a value or with the exception
    that was raised. *)
Definition M (A : Type) : Type := list event * (Exception + A).

Definition ret {A} (a : A) : M A := ([], inr a).
Definition raise {A} (e : Exception) : M A := ([], inl e).
Definition emit (ev : event) : M unit := ([ev], inr tt).
Definition lift {A} (r : Exception + A) : M A := ([], r).

Definition bind {A B} (c : M A) (k : A -> M B) : M B :=
  match c with
  | (l, inl e) => (l, inl e)
  | (l, inr a) => let '(l', r) := k a in (l ++ l', r)
  end.

Notation "x <- c ;; k" := (bind c (fun x => k))
  (at level 61, c at next level, right associativity).
Notation "c ;;; k" := (bind c (fun _ => k))
  (at level 61, right associativity).

Definition attempt (outcome : option Exception) : M unit :=
  match outcome with
  | Some e => raise e
  | None => ret tt
  end.

Definition unsupported : string := "Unsupported file format. Use CSV or Excel.".

(** Line 16. *)
Definition file_ext (input_file : string) : string :=
  Str.lower (Str.last (Str.split "." input_file)).

Section Program.

Variable env : Env.

(** Lines 16-23. *)
Definition load (input_file : string) : M DataFrame :=
  let ext := file_ext input_file in
  if Str.mem ext ["xlsx"; "xls"] then
    emit (ReadExcel input_file) ;;; lift (read_excel env input_file)
  else if String.eqb ext "csv" then
    emit (ReadCsv input_file) ;;; lift (read_csv env input_file)
  else raise (ValueError unsupported).

(** Lines 94-158.  The [ExcelWriter] block saves the two tables when it
    completes; when it raises with the writer open, a partial file is saved
    on the way out.  The workbook is then loaded again, styled and saved
    over the first one. *)
Definition render (output_file : string) (r : Report) : M unit :=
  match to_excel env output_file r with
  | Some (e, writer_open) =>
      (if writer_open then emit (WritePartial output_file) else ret tt) ;;;
      raise e
  | None =>
      emit (WriteExcel output_file r) ;;;
      emit (LoadWorkbook output_file) ;;;
      attempt (load_workbook env output_file) ;;;
      attempt (save env output_file r) ;;;
      emit (SaveWorkbook output_file r)
  end.

(** Lines 16-89: the report to be written. *)
Definition prepare (input_file : string) : M Report :=
  df <- load input_file ;;
  lift (pipeline (to_datetime env) df).

Definition body (input_file output_file : string) : M unit :=
  r <- prepare input_file ;;
  render output_file r.

(** The whole function: the [try] body, then one message box. *)
Definition generate_report (input_file output_file : string) : list event :=
  match body input_file output_file with
  | (l, inr _) => l ++ [ShowInfo output_file]
  | (l, inl e) => l ++ [ShowError e]
  end.

End Program.

(** What a log says about a run. *)
Definition is_popup (ev : event) : bool :=
  match ev with
  | ShowInfo _ | ShowError _ => true
  | _ => false
  end.

Definition is_error (ev : event) : bool :=
  match ev with
  | ShowError _ => true
  | _ => false
  end.

Definition writes_to (path : string) (ev : event) : bool :=
  match ev with
  | WriteExcel p _ | WritePartial p | SaveWorkbook p _ => String.eqb p path
  | _ => false
  end.

Definition is_read (ev : event) : bool :=
  match ev with
  | ReadExcel _ | ReadCsv _ => true
  | _ => false
  end.

Definition failed (log : list event) : bool := existsb is_error log.
Definition left_on_disk (path : string) (log : list event) : bool :=
  existsb (writes_to path) log.

(** ** An instance of the date parser: calendar dates written YYYY-MM-DD *)

Module Iso.

Definition digit (a : ascii) : option Z :=
  let n := Z.of_nat (nat_of_ascii a) in
  if (48 <=? n) && (n <=? 57) then Some (n - 48) else None.

Fixpoint number (l : list ascii) (acc : Z) : option Z :=
  match l with
  | [] => Some acc
  | a :: r =>
      match digit a with
      | Some d => number r (10 * acc + d)
      | None => None
      end
  end.

Definition is_leap (y : Z) : bool :=
  ((y mod 4 =? 0) && negb (y mod 100 =? 0)) || (y mod 400 =? 0).

Definition days_in_month (y m : Z) : Z :=
  if m =? 2 then (if is_leap y then 29 else 28)
  else if (m =? 4) || (m =? 6) || (m =? 9) || (m =? 11) then 30
  else 31.

(** Days since 1970-01-01 in the proleptic Gregorian calendar. *)
Definition days_from_civil (y m d : Z) : Z :=
  let y' := if m <=? 2 then y - 1 else y in
  let era := y' / 400 in
  let yoe := y' - era * 400 in
  let mp := (m + 9) mod 12 in
  let doy := (153 * mp + 2) / 5 + d - 1 in
  let doe := yoe * 365 + yoe / 4 - yoe / 100 + doy in
  era * 146097 + doe - 719468.

Definition ns_per_day : Z := 86400 * 1000000000.

Definition parse (s : string) : option Z :=
  match list_ascii_of_string s with
  | [y1; y2; y3; y4; h1; m1; m2; h2; d1; d2] =>
      if Ascii.eqb h1 "-" && Ascii.eqb h2 "-" then
        match number [y1; y2; y3; y4] 0, number [m1; m2] 0,
              number [d1; d2] 0 with
        | Some y, Some m, Some d =>
            if (1 <=? m) && (m <=? 12) && (1 <=? d)
               && (d <=? days_in_month y m)
            then Some (days_from_civil y m d * ns_per_day)
            else None
        | _, _, _ => None
        end
      else None
  | _ => None
  end.

Definition to_datetime (column : list string) (s : string) : option Z :=
  parse s.

End Iso.

(** ** The example table of the specification *)

Definition example_table (s1 s2 s3 s4 : string) : DataFrame :=
  [ ("Work date", Object ["2024-01-05"; "2024-01-06"; "2024-01-01"; "bad-date"]);
    ("Shift", Object [s1; s2; s3; s4]);
    ("Machine", Object ["A01"; "A01"; "A99"; "A02"]);
    ("Q`ty", Int64 [100; 50; 10; 5]);
    ("WPCS Qty", Int64 [30; 5; 10; 5]) ].

(** ** Definitions used by the statements *)

Definition str_lt : string -> string -> Prop := String_as_OT.lt.

(** The value of the lambda of line 70. *)
Definition percent_value (wpc worked : Z) : Float64.float :=
  if worked =? 0 then Float64.zero
  else Float64.py_round2
         (Float64.mul (Float64.int_truediv wpc worked) (Float64.of_int 100)).

(** The row of machine [k] computed from the filtered rows [f]. *)
Definition machine_row (f : list (Row Z)) (k : string) : MachineSummary :=
  let w := sum (map worked_qty (group f k)) in
  let c := sum (map wpc_qty (group f k)) in
  mkSummary k (max_date (map work_date (group f k))) w c (percent_value c w).

(** Whether a loaded row reaches the group of machine [k]: its date parses
    in the column [c], its machine is allowed and is [k]. *)
Definition contributes (to_dt : list string -> string -> option Z)
    (c : list string) (k : string) (x : Row string) : bool :=
  match to_dt c (work_date x) with
  | Some _ => Str.mem (machine x) allowed_machines && String.eqb (machine x) k
  | None => false
  end.

(** The rows that reach the aggregation when the date column is parsed in
    the context [c]; [df_filtered] takes [c] to be the rows' own column. *)
Definition stage (to_dt : list string -> string -> option Z) (c : list string)
    (rows : list (Row string)) : list (Row Z) :=
  isin_allowed
    (dropna (map (fun r => set_date r (to_dt c (work_date r))) rows)).

Definition empty_report : Report := mkReport [] (mkTotal 0 0 Float64.zero).

Definition date (y m d : Z) : Z := Iso.days_from_civil y m d * Iso.ns_per_day.

Definition example_rows (s1 s2 s3 s4 : string) : list (Row string) :=
  [ mkRow "2024-01-05" (Str s1) "A01" 100 30;
    mkRow "2024-01-06" (Str s2) "A01" 50 5;
    mkRow "2024-01-01" (Str s3) "A99" 10 10;
    mkRow "bad-date" (Str s4) "A02" 5 5 ].

(** ** A second table: two machines kept, one below the threshold, one with
    no worked quantity, one row without a date, one machine outside the list *)

Definition sample_table : DataFrame :=
  [ ("Line", Object ["L1"; "L1"; "L1"; "L2"; "L2"; "L2"; "L3"]);
    ("Work date", Object ["2024-03-01"; "2024-03-02"; "2024-03-01";
                          "2024-03-03"; "n/a"; "2024-03-01"; "2024-03-04"]);
    ("Shift", Int64 [1; 2; 1; 1; 1; 1; 2]);
    ("Machine", Object ["A01"; "A01"; "A02"; "A03"; "A04"; "B07"; "A10"]);
    ("Q`ty", Int64 [100; 50; 200; 0; 10; 10; 40]);
    ("WPCS Qty", Int64 [30; 5; 20; 4; 9; 9; 10]) ].

Definition sample_rows : list (Row string) :=
  [ mkRow "2024-03-01" (Int 1) "A01" 100 30;
    mkRow "2024-03-02" (Int 2) "A01" 50 5;
    mkRow "2024-03-01" (Int 1) "A02" 200 20;
    mkRow "2024-03-03" (Int 1) "A03" 0 4;
    mkRow "n/a" (Int 1) "A04" 10 9;
    mkRow "2024-03-01" (Int 1) "B07" 10 9;
    mkRow "2024-03-04" (Int 2) "A10" 40 10 ].

Definition sample_report : Report :=
  mkReport
    [ mkSummary "A01" (date 2024 3 2) 150 35 (Float64.of_hundredths 2333);
      mkSummary "A10" (date 2024 3 4) 40 10 (Float64.of_hundredths 2500) ]
    (mkTotal 190 45 (Float64.of_hundredths 2368)).

(** Two rows, neither with a date. *)
Definition undated_table : DataFrame :=
  [ ("Work date", Object ["n/a"; "soon"]);
    ("Shift", Object ["D"; "N"]);
    ("Machine", Object ["A01"; "A02"]);
    ("Q`ty", Int64 [100; 50]);
    ("WPCS Qty", Int64 [30; 25]) ].

Definition undated_rows : list (Row string) :=
  [ mkRow "n/a" (Str "D") "A01" 100 30; mkRow "soon" (Str "N") "A02" 50 25 ].

(** A table without the machine column. *)
Definition machineless_table : DataFrame :=
  [ ("Work date", Object ["2024-01-05"]);
    ("Shift", Object ["D"]);
    ("Q`ty", Int64 [100]);
    ("WPCS Qty", Int64 [30]) ].

(** Two machines whose worked quantities do not fit in 64 bits together. *)
Definition overflow_table : DataFrame :=
  [ ("Work date", Object ["2024-03-01"; "2024-03-01"]);
    ("Shift", Object ["D"; "D"]);
    ("Machine", Object ["A01"; "A02"]);
    ("Q`ty", Int64 [2 ^ 62; 2 ^ 62]);
    ("WPCS Qty", Int64 [2 ^ 62; 2 ^ 62]) ].

Definition overflow_report : Report :=
  mkReport
    [ mkSummary "A01" (date 2024 3 1) (2 ^ 62) (2 ^ 62)
                (Float64.of_hundredths 10000);
      mkSummary "A02" (date 2024 3 1) (2 ^ 62) (2 ^ 62)
                (Float64.of_hundredths 10000) ]
    (mkTotal (- 2 ^ 63) (- 2 ^ 63) (Float64.of_hundredths 10000)).

(** One machine whose two worked quantities do not fit in 64 bits together. *)
Definition wrapping_table : DataFrame :=
  [ ("Work date", Object ["2024-03-01"; "2024-03-02"]);
    ("Shift", Object ["D"; "N"]);
    ("Machine", Object ["A01"; "A01"]);
    ("Q`ty", Int64 [2 ^ 62; 2 ^ 62]);
    ("WPCS Qty", Int64 [2 ^ 61; 2 ^ 61]) ].

(** Every step of the renderer goes through. *)
Definition sample_env : Env :=
  mkEnv Iso.to_datetime
        (fun _ => inl (OSError "No such file or directory"))
        (fun _ => inr sample_table)
        (fun _ _ => None) (fun _ => None) (fun _ _ => None).

(** The final save is refused after the two tables were written. *)
Definition faulty_env : Env :=
  mkEnv Iso.to_datetime
        (fun _ => inl (OSError "No such file or directory"))
        (fun _ => inr sample_table)
        (fun _ _ => None) (fun _ => None)
        (fun _ _ => Some (OSError "Permission denied")).

(** ** The sheet of the report (lines 94-97) *)

Local Open Scope nat_scope.

(** What a cell of the sheet holds. *)
Inductive CellValue :=
  | CText (s : string)
  | CInt (n : Z)
  | CFloat (x : Float64.float)
  | CDate (t : Z).

(** [summary_df.columns] and [summary_total.columns]. *)
Definition summary_columns : list string :=
  ["machine"; "last_work_date"; "worked Q'ty"; "WPC qty"; "WPCS %"].

Definition total_columns : list string :=
  ["Total worked Q'ty"; "Total WPC qty"; "Total WPCS %"].

Definition summary_cells (r : MachineSummary) : list CellValue :=
  [ CText (ms_machine r); CDate (last_work_date r); CInt (ms_worked_qty r);
    CInt (ms_wpc_qty r); CFloat (wpcs_pct r) ].

Definition total_cells (t : GrandTotal) : list CellValue :=
  [ CInt (total_worked_qty t); CInt (total_wpc_qty t);
    CFloat (total_wpcs_percent t) ].

(** A written cell: sheet row and column, both counted from 1, and value. *)
Definition Cell : Type := nat * nat * CellValue.

Definition cell_pos (c : Cell) : nat * nat := fst c.

(** The values [vs] on sheet row [row], from column 1 on. *)
Definition place_row (row : nat) (vs : list CellValue) : list Cell :=
  map (fun iv => (row, S (fst iv), snd iv))
      (combine (seq 0 (List.length vs)) vs).

(** [frame.iloc[:, j]]: the [j]-th value of every data row. *)
Definition column (j : nat) (data : list (list CellValue)) : list CellValue :=
  map (fun vs => nth j vs (CText EmptyString)) data.

(** The values [vs] in sheet column [col], from sheet row [first_row]
    downwards. *)
Definition place_column (first_row col : nat) (vs : list CellValue)
  : list Cell :=
  map (fun iv => (first_row + fst iv, col, snd iv))
      (combine (seq 0 (List.length vs)) vs).

(** [frame.to_excel(writer, index=False, startrow=startrow)], in the order
    of writing: the header on sheet row [startrow + 1], then the data below
    it, one column after the other. *)
Definition to_excel_cells (header : list string) (data : list (list CellValue))
    (startrow : nat) : list Cell :=
  place_row (startrow + 1) (map CText header)
  ++ flat_map (fun j => place_column (startrow + 2) (S j) (column j data))
              (seq 0 (List.length header)).

(** Line 96. *)
Definition start_row_total (r : Report) : nat :=
  List.length (summary_df r) + 2.

(** Lines 94-97: the cells of sheet Report. *)
Definition written_sheet (r : Report) : list Cell :=
  to_excel_cells summary_columns (map summary_cells (summary_df r)) 0
  ++ to_excel_cells total_columns [total_cells (summary_total r)]
       (start_row_total r).

(** [ws.cell(row, column).value]; [None] on a cell never written. *)
Definition cell_value (sheet : list Cell) (row col : nat) : option CellValue :=
  match find (fun c => Nat.eqb (fst (fst c)) row && Nat.eqb (snd (fst c)) col)
             sheet with
  | Some c => Some (snd c)
  | None => None
  end.

(** ** Styling (lines 105-156) *)

Record Style := mkStyle {
  header_font : bool;
  header_fill : bool;
  center_align : bool;
  border : bool
}.

(** Lines 132-135 and 147-150, and lines 140-141 and 155-156. *)
Definition header_style : Style := mkStyle true true true true.
Definition data_style : Style := mkStyle false false true true.

(** [range(a, b)]. *)
Definition range (a b : nat) : list nat := seq a (b - a).

(** The cells on the given rows and columns, row by row. *)
Definition grid (rows cols : list nat) : list (nat * nat) :=
  flat_map (fun r => map (fun c => (r, c)) cols) rows.

(** The cells of [ws.iter_rows(min_row, max_row, min_col, max_col)]. *)
Definition iter_rows (min_row max_row min_col max_col : nat)
  : list (nat * nat) :=
  grid (seq min_row (max_row + 1 - min_row))
       (seq min_col (max_col + 1 - min_col)).

(** Lines 130-156: the cells styled and the style given, in program order,
    for a machine-level table of [n] rows. *)
Definition styling (n : nat) : list (nat * nat * Style) :=
  let start_total := n + 3 in
  map (fun col => (1, col, header_style))
      (range 1 (List.length summary_columns + 1))
  ++ map (fun p => (p, data_style))
         (iter_rows 2 (1 + n) 1 (List.length summary_columns))
  ++ map (fun col => (start_total, col, header_style))
         (range 1 (List.length total_columns + 1))
  ++ map (fun p => (p, data_style))
         (iter_rows (start_total + 1) (start_total + 1) 1
                    (List.length total_columns)).

(** ** Column widths (lines 117-127) *)

(** [str(cell.value)]: the text itself for a text cell, [None] for a cell
    without a value; [render] is the text of the other values. *)
Definition cell_text (render : CellValue -> string) (v : option CellValue)
  : string :=
  match v with
  | None => "None"
  | Some (CText s) => s
  | Some x => render x
  end.

(** The inner loop of lines 118-126 over the rows [1 .. max_row] of one
    column, then line 127. *)
Definition column_width (render : CellValue -> string) (sheet : list Cell)
    (max_row col : nat) : nat :=
  fold_left (fun max_length row =>
               let value_length :=
                 String.length (cell_text render (cell_value sheet row col)) in
               if Nat.ltb max_length value_length then value_length
               else max_length)
            (seq 1 max_row) 0
  + 2.

(** [ws.max_row] of the written sheet. *)
Definition max_row (r : Report) : nat := start_row_total r + 2.

Local Close Scope nat_scope.

(** ** The window (lines 168-204) *)

Inductive ui_event :=
  | ShowWarning (msg : string)
  | FromReport (ev : event).

(** The text of the two entry fields. *)
Record Gui := mkGui {
  input_entry : string;
  output_entry : string
}.

Definition initial_gui : Gui := mkGui EmptyString EmptyString.

(** Python's [not s] on a string. *)
Definition is_empty (s : string) : bool :=
  match s with
  | EmptyString => true
  | String _ _ => false
  end.

(** Lines 168-172; [file_path] is what the dialog returned, empty when it
    was cancelled. *)
Definition select_input_file (file_path : string) (g : Gui) : Gui :=
  if is_empty file_path then g else mkGui file_path (output_entry g).

(** Lines 174-178. *)
Definition select_output_file (file_path : string) (g : Gui) : Gui :=
  if is_empty file_path then g else mkGui (input_entry g) file_path.

Definition warning : string := "Please select both input and output files.".

(** Lines 180-186. *)
Definition run_report (env : Env) (g : Gui) : list ui_event :=
  if is_empty (input_entry g) || is_empty (output_entry g)
  then [ShowWarning warning]
  else map FromReport
           (generate_report env (input_entry g) (output_entry g)).

(** A press on one of the three buttons; a press on Generate meets the
    files and faults of that moment. *)
Inductive action :=
  | BrowseInput (file_path : string)
  | BrowseOutput (file_path : string)
  | Generate (env : Env).

Definition press (a : action) (g : Gui) : Gui * list ui_event :=
  match a with
  | BrowseInput p => (select_input_file p g, [])
  | BrowseOutput p => (select_output_file p g, [])
  | Generate env => (g, run_report env g)
  end.

(** The main loop on a sequence of presses. *)
Fixpoint session (acts : list action) (g : Gui) : Gui * list ui_event :=
  match acts with
  | [] => (g, [])
  | a :: rest =>
      let '(g1, l1) := press a g in
      let '(g2, l2) := session rest g1 in
      (g2, l1 ++ l2)
  end.

Definition is_message (ev : ui_event) : bool :=
  match ev with
  | ShowWarning _ => true
  | FromReport e => is_popup e
  end.

Definition is_generate (a : action) : bool :=
  match a with
  | Generate _ => true
  | _ => false
  end.

(** ** Rows without their shift, filtered rows without their shift *)

Definition forget_shift {D} (r : Row D) : D * string * Z * Z :=
  (work_date r, machine r, worked_qty r, wpc_qty r).

(** The order of Python on strings, as a relation. *)
Definition str_before (a b : string) : Prop := String.compare a b = Lt.

(** * Properties *)

(** ** Sums in 64-bit arithmetic *)

Lemma wrap64_add_l (a x : Z) : wrap64 (wrap64 a + x) = wrap64 (a + x).
Proof.
  unfold wrap64. f_equal.
  replace ((a + 2 ^ 63) mod 2 ^ 64 - 2 ^ 63 + x + 2 ^ 63)
    with ((a + 2 ^ 63) mod 2 ^ 64 + x) by lia.
  rewrite Z.add_mod_idemp_l by lia. f_equal. lia.
Qed.

Lemma wrap64_small (z : Z) : int64_range z -> wrap64 z = z.
Proof.
  unfold int64_range, wrap64. intro H. rewrite Z.mod_small; lia.
Qed.

Lemma wrap64_range (z : Z) : int64_range (wrap64 z).
Proof.
  unfold int64_range, wrap64.
  pose proof (Z.mod_pos_bound (z + 2 ^ 63) (2 ^ 64) ltac:(lia)). lia.
Qed.

Lemma fold_wrap64 (l : list Z) (a : Z) :
  fold_left (fun acc x => wrap64 (acc + x)) l (wrap64 a)
  = wrap64 (a + exact_sum l).
Proof.
  revert a. induction l as [|x r IH]; intro a; cbn [fold_left exact_sum
    fold_right].
  - rewrite Z.add_0_r. reflexivity.
  - rewrite wrap64_add_l, IH. f_equal. fold (exact_sum r). lia.
Qed.

(** The 64-bit sum is the exact sum modulo 2^64. *)
Lemma sum_wrap64 (l : list Z) : sum l = wrap64 (exact_sum l).
Proof.
  unfold sum. change 0 with (wrap64 0) at 1. rewrite fold_wrap64.
  reflexivity.
Qed.

(** It is the exact sum when that one fits in 64 bits. *)
Lemma sum_exact (l : list Z) :
  int64_range (exact_sum l) -> sum l = exact_sum l.
Proof. intro H. rewrite sum_wrap64. apply wrap64_small. exact H. Qed.

(** It is not in general: two cells of 2^62 add up to -2^63. *)
Lemma sum_wraps_around :
  sum [2 ^ 62; 2 ^ 62] = - 2 ^ 63 /\ exact_sum [2 ^ 62; 2 ^ 62] = 2 ^ 63.
Proof. split; vm_compute; reflexivity. Qed.

(** ** Strings *)

Lemma mem_In (x : string) (l : list string) : Str.mem x l = true <-> In x l.
Proof.
  induction l as [|y r IH]; simpl.
  - split; [discriminate | tauto].
  - rewrite orb_true_iff, IH, String.eqb_eq. intuition congruence.
Qed.

Lemma mem_false_In (x : string) (l : list string) :
  Str.mem x l = false <-> ~ In x l.
Proof.
  rewrite <- mem_In. destruct (Str.mem x l); intuition congruence.
Qed.

Lemma split_not_nil (c : ascii) (s : string) : Str.split c s <> [].
Proof.
  destruct s as [|a r]; simpl; [discriminate|].
  destruct (Ascii.eqb a c); [discriminate|].
  destruct (Str.split c r); discriminate.
Qed.

(** [(s1 + c + s2).split(c) == s1.split(c) + s2.split(c)] *)
Lemma split_app (c : ascii) (s1 s2 : string) :
  Str.split c (String.append s1 (String c s2))
  = Str.split c s1 ++ Str.split c s2.
Proof.
  induction s1 as [|a r IH]; simpl.
  - rewrite Ascii.eqb_refl. reflexivity.
  - destruct (Ascii.eqb a c); rewrite IH.
    + reflexivity.
    + pose proof (split_not_nil c r) as Hr.
      destruct (Str.split c r) as [|h t]; [contradiction|]. reflexivity.
Qed.

Lemma split_no_sep (c : ascii) (s : string) :
  Str.has_char c s = false -> Str.split c s = [s].
Proof.
  unfold Str.has_char.
  induction s as [|a r IH]; simpl; intro H; [reflexivity|].
  apply orb_false_iff in H. destruct H as [Ha Hr].
  rewrite Ascii.eqb_sym, Ha, (IH Hr). reflexivity.
Qed.

Lemma last_app_singleton (l : list string) (x : string) :
  Str.last (l ++ [x]) = x.
Proof. unfold Str.last. apply last_last. Qed.

(** The extension of a dotted path is its last segment, in lower case. *)
Lemma file_ext_dotted (stem e : string) :
  Str.has_char "." e = false ->
  file_ext (String.append stem (String "." e)) = Str.lower e.
Proof.
  intro H. unfold file_ext.
  rewrite split_app, (split_no_sep _ _ H), last_app_singleton. reflexivity.
Qed.

(** ** Grouping *)

Lemma insert_key_In (k x : string) (ks : list string) :
  In x (insert_key k ks) <-> x = k \/ In x ks.
Proof.
  induction ks as [|k' r IH]; simpl.
  - intuition.
  - destruct (String.compare k k') eqn:E; simpl.
    + apply String.compare_eq_iff in E. subst. intuition.
    + intuition.
    + rewrite IH. intuition.
Qed.

Lemma group_keys_In {D} (rows : list (Row D)) (k : string) :
  In k (group_keys rows) <-> exists r, In r rows /\ machine r = k.
Proof.
  unfold group_keys. induction rows as [|r rs IH]; simpl.
  - split; [tauto | intros (r & [] & _)].
  - rewrite insert_key_In, IH. split.
    + intros [-> | (x & Hx & Hk)]; [exists r | exists x]; auto.
    + intros (x & [<- | Hx] & Hk); [left | right; exists x]; auto.
Qed.

Lemma compare_Lt (a b : string) : String.compare a b = Lt -> str_lt a b.
Proof. intro H. apply String_as_OT.cmp_lt. exact H. Qed.

Lemma compare_Gt (a b : string) : String.compare a b = Gt -> str_lt b a.
Proof.
  intro H. apply String_as_OT.cmp_lt. unfold String_as_OT.cmp.
  rewrite String.compare_antisym, H. reflexivity.
Qed.

Lemma insert_key_sorted (k : string) (ks : list string) :
  StronglySorted str_lt ks -> StronglySorted str_lt (insert_key k ks).
Proof.
  induction 1 as [|k' r Hs IH Hall]; simpl.
  - constructor; constructor.
  - destruct (String.compare k k') eqn:E.
    + constructor; assumption.
    + apply compare_Lt in E. constructor.
      * constructor; assumption.
      * constructor; [exact E|].
        eapply Forall_impl; [|exact Hall].
        intros x Hx. eapply String_as_OT.lt_trans; eassumption.
    + apply compare_Gt in E. constructor; [exact IH|].
      apply Forall_forall. intros x Hx.
      apply insert_key_In in Hx. destruct Hx as [-> | Hx]; [exact E|].
      rewrite Forall_forall in Hall. auto.
Qed.

Lemma group_keys_sorted {D} (rows : list (Row D)) :
  StronglySorted str_lt (group_keys rows).
Proof.
  unfold group_keys. induction (map machine rows); simpl.
  - constructor.
  - apply insert_key_sorted. assumption.
Qed.

Lemma sorted_NoDup (ks : list string) : StronglySorted str_lt ks -> NoDup ks.
Proof.
  induction 1 as [|k r Hs IH Hall]; constructor; [|exact IH].
  intro Hin. rewrite Forall_forall in Hall.
  apply (String_as_OT.lt_not_eq k k (Hall k Hin)). reflexivity.
Qed.

Lemma group_keys_NoDup {D} (rows : list (Row D)) : NoDup (group_keys rows).
Proof. apply sorted_NoDup, group_keys_sorted. Qed.

(** ** The join of the two aggregates *)

Section Join.

Variables (f : string -> Z) (g : string -> Z * Z).

Lemma filter_other_keys (k : string) (ks : list string) :
  ~ In k ks ->
  filter (fun r : string * (Z * Z) => String.eqb (fst r) k)
         (map (fun x => (x, g x)) ks) = [].
Proof.
  induction ks as [|x r IH]; simpl; intro H; [reflexivity|].
  destruct (String.eqb_spec x k) as [->|Hne]; [tauto|]. apply IH. tauto.
Qed.

Lemma filter_own_key (k : string) (ks : list string) :
  NoDup ks -> In k ks ->
  filter (fun r : string * (Z * Z) => String.eqb (fst r) k)
         (map (fun x => (x, g x)) ks) = [(k, g k)].
Proof.
  induction 1 as [|x r Hx Hnd IH]; simpl; intro Hin; [tauto|].
  destruct (String.eqb_spec x k) as [->|Hne].
  - rewrite filter_other_keys by assumption. reflexivity.
  - destruct Hin as [->|Hin]; [congruence|]. auto.
Qed.

Lemma merge_same_keys_sub (ks sub : list string) :
  NoDup ks -> incl sub ks ->
  merge (map (fun k => (k, f k)) sub) (map (fun k => (k, g k)) ks)
  = map (fun k => (k, f k, g k)) sub.
Proof.
  intros Hnd. unfold merge.
  induction sub as [|k r IH]; simpl; intro Hincl; [reflexivity|].
  rewrite filter_own_key by (auto with datatypes). simpl.
  rewrite IH; [reflexivity|]. intros x Hx. apply Hincl. now right.
Qed.

(** Both aggregates have the same distinct keys: the join is one to one. *)
Lemma merge_same_keys (ks : list string) :
  NoDup ks ->
  merge (map (fun k => (k, f k)) ks) (map (fun k => (k, g k)) ks)
  = map (fun k => (k, f k, g k)) ks.
Proof. intro H. apply merge_same_keys_sub; [exact H | apply incl_refl]. Qed.

End Join.

(** ** The ratio never raises *)

Lemma wpcs_percent_value (wpc worked : Z) :
  wpcs_percent wpc worked = inr (percent_value wpc worked).
Proof.
  unfold wpcs_percent, percent_value, py_truediv.
  destruct (worked =? 0); reflexivity.
Qed.

Lemma apply_percent_map (f : string -> Z) (g : string -> Z * Z)
    (ks : list string) :
  apply_percent (map (fun k => (k, f k, g k)) ks)
  = inr (map (fun k => mkSummary k (f k) (fst (g k)) (snd (g k))
                         (percent_value (snd (g k)) (fst (g k)))) ks).
Proof.
  induction ks as [|k r IH]; simpl; [reflexivity|].
  destruct (g k) as [w c]. rewrite wpcs_percent_value, IH. reflexivity.
Qed.

(** ** The machine-level table, row by row *)

Lemma ratio_table_eq (to_dt : list string -> string -> option Z)
    (rows : list (Row string)) :
  ratio_table to_dt rows
  = inr (map (machine_row (df_filtered to_dt rows))
             (group_keys (df_filtered to_dt rows))).
Proof.
  unfold ratio_table, last_dates, sum_qty.
  set (f := df_filtered to_dt rows).
  rewrite (merge_same_keys
             (fun k => max_date (map work_date (group f k)))
             (fun k => (sum (map worked_qty (group f k)),
                        sum (map wpc_qty (group f k)))))
    by apply group_keys_NoDup.
  rewrite apply_percent_map. reflexivity.
Qed.

Lemma transform_eq (to_dt : list string -> string -> option Z)
    (rows : list (Row string)) :
  transform to_dt rows
  = let kept := keep_above_threshold
                  (map (machine_row (df_filtered to_dt rows))
                       (group_keys (df_filtered to_dt rows))) in
    inr (mkReport kept (totals kept)).
Proof. unfold transform. rewrite ratio_table_eq. reflexivity. Qed.

(** ** The rows behind a group *)

Section Stage.

Variable to_dt : list string -> string -> option Z.
Variable c : list string.

Lemma stage_cons (x : Row string) (rows : list (Row string)) :
  stage to_dt c (x :: rows)
  = match to_dt c (work_date x) with
    | Some d => if Str.mem (machine x) allowed_machines
                then set_date x d :: stage to_dt c rows else stage to_dt c rows
    | None => stage to_dt c rows
    end.
Proof.
  unfold stage, isin_allowed, dropna. simpl.
  destruct (to_dt c (work_date x)); simpl; reflexivity.
Qed.

Lemma In_stage (y : Row Z) (rows : list (Row string)) :
  In y (stage to_dt c rows) <->
  exists x d, In x rows /\ to_dt c (work_date x) = Some d
              /\ Str.mem (machine x) allowed_machines = true
              /\ y = set_date x d.
Proof.
  induction rows as [|x r IH].
  - simpl. split; [tauto | intros (x & d & [] & _)].
  - rewrite stage_cons. split.
    + destruct (to_dt c (work_date x)) as [d|] eqn:Ed;
        [destruct (Str.mem (machine x) allowed_machines) eqn:Em|].
      * intros [<- | H].
        -- exists x, d. simpl. auto.
        -- apply IH in H. destruct H as (x' & d' & H1 & H2).
           exists x', d'. simpl. auto.
      * intro H. apply IH in H. destruct H as (x' & d' & H1 & H2).
        exists x', d'. simpl. auto.
      * intro H. apply IH in H. destruct H as (x' & d' & H1 & H2).
        exists x', d'. simpl. auto.
    + intros (x' & d' & [<- | Hin] & Hd & Hm & ->).
      * rewrite Hd, Hm. now left.
      * assert (In (set_date x' d') (stage to_dt c r)) as H
            by (apply IH; exists x', d'; auto).
        destruct (to_dt c (work_date x)); [|exact H].
        destruct (Str.mem (machine x) allowed_machines); [now right | exact H].
Qed.

(** A quantity column of a group, read off the loaded rows. *)
Lemma group_stage_column (q : forall D, Row D -> Z)
    (Hq : forall D E (r : Row D) (d : E), q E (set_date r d) = q D r)
    (k : string) (rows : list (Row string)) :
  map (q Z) (group (stage to_dt c rows) k)
  = map (q string) (filter (contributes to_dt c k) rows).
Proof.
  unfold group.
  induction rows as [|x r IH]; [reflexivity|].
  rewrite stage_cons. cbn [filter]. unfold contributes at 1.
  destruct (to_dt c (work_date x)) as [d|]; [|exact IH].
  destruct (Str.mem (machine x) allowed_machines); cbn [andb filter];
    [|exact IH].
  change (machine (set_date x d)) with (machine x).
  destruct (String.eqb (machine x) k); cbn [map]; [|exact IH].
  rewrite Hq, IH. reflexivity.
Qed.

Lemma group_stage_dates (k : string) (d : Z) (rows : list (Row string)) :
  In d (map work_date (group (stage to_dt c rows) k)) <->
  exists x, In x rows /\ contributes to_dt c k x = true
            /\ to_dt c (work_date x) = Some d.
Proof.
  unfold group, contributes. rewrite in_map_iff. split.
  - intros (y & <- & Hy). apply filter_In in Hy. destruct Hy as [Hy Hk].
    apply In_stage in Hy. destruct Hy as (x & d' & Hx & Hd & Hm & ->).
    exists x. simpl in *. rewrite Hd, Hm, Hk. auto.
  - intros (x & Hx & Hc & Hd). rewrite Hd in Hc.
    apply andb_true_iff in Hc. destruct Hc as [Hm Hk].
    exists (set_date x d). split; [reflexivity|].
    apply filter_In. split; [|exact Hk].
    apply In_stage. exists x, d. auto.
Qed.

End Stage.

Lemma df_filtered_stage (to_dt : list string -> string -> option Z)
    (rows : list (Row string)) :
  df_filtered to_dt rows = stage to_dt (map work_date rows) rows.
Proof. reflexivity. Qed.

(** ** Maximum of a group's dates *)

Lemma fold_max_ge (l : list Z) (a : Z) :
  a <= fold_left Z.max l a /\ Forall (fun d => d <= fold_left Z.max l a) l.
Proof.
  revert a. induction l as [|x r IH]; intro a; simpl.
  - split; [lia | constructor].
  - destruct (IH (Z.max a x)) as [H1 H2]. split; [lia|].
    constructor; [lia | exact H2].
Qed.

Lemma fold_max_In (l : list Z) (a : Z) :
  fold_left Z.max l a = a \/ In (fold_left Z.max l a) l.
Proof.
  revert a. induction l as [|x r IH]; intro a; simpl; [now left|].
  destruct (IH (Z.max a x)) as [H | H]; [|now right; right].
  rewrite H. destruct (Z.max_spec a x) as [[_ ->] | [_ ->]]; auto.
Qed.

Lemma max_date_spec (l : list Z) :
  l <> [] -> In (max_date l) l /\ Forall (fun d => d <= max_date l) l.
Proof.
  destruct l as [|a r]; [congruence|]. intros _. simpl. split.
  - destruct (fold_max_In r a) as [-> | H]; auto.
  - destruct (fold_max_ge r a) as [H1 H2]. constructor; assumption.
Qed.

(** ** The stages of [pipeline] *)

Lemma pipeline_inr (to_dt : list string -> string -> option Z)
    (df : DataFrame) (rep : Report) :
  pipeline to_dt df = inr rep ->
  exists rows,
    selected_rows df = inr rows
    /\ ratio_table to_dt rows
       = inr (map (machine_row (df_filtered to_dt rows))
                  (group_keys (df_filtered to_dt rows)))
    /\ summary_df rep
       = keep_above_threshold
           (map (machine_row (df_filtered to_dt rows))
                (group_keys (df_filtered to_dt rows)))
    /\ summary_total rep = totals (summary_df rep).
Proof.
  unfold pipeline. destruct (selected_rows df) as [e|rows]; [discriminate|].
  rewrite transform_eq. cbv zeta. intro H. injection H as <-.
  exists rows. repeat split. apply ratio_table_eq.
Qed.

Lemma pipeline_of_rows (to_dt : list string -> string -> option Z)
    (df : DataFrame) (rows : list (Row string)) :
  selected_rows df = inr rows ->
  pipeline to_dt df = transform to_dt rows.
Proof. intro H. unfold pipeline. rewrite H. reflexivity. Qed.

Lemma In_summary (f : list (Row Z)) (r : MachineSummary) :
  In r (keep_above_threshold (map (machine_row f) (group_keys f))) ->
  Float64.geb (wpcs_pct r) threshold = true
  /\ In (ms_machine r) (group_keys f)
  /\ r = machine_row f (ms_machine r).
Proof.
  unfold keep_above_threshold. intro H. apply filter_In in H.
  destruct H as [H Hge]. apply in_map_iff in H. destruct H as (k & <- & Hk).
  simpl. auto.
Qed.

Lemma zero_below_threshold : Float64.geb Float64.zero threshold = false.
Proof. vm_compute. reflexivity. Qed.

(** The two roundings are not the same function: on 823 out of 4000 the
    machine row reads 20.57 and a grand total over that one row 20.58. *)
Lemma row_and_total_rounding :
  percent_value 823 4000 = Float64.of_hundredths 2057
  /\ total_percent 823 4000 = Float64.of_hundredths 2058.
Proof. split; vm_compute; reflexivity. Qed.

Lemma allowed_machines_eq :
  allowed_machines
  = [ "A01"; "A02"; "A03"; "A04"; "A05"; "A06"; "A07"; "A08"; "A09"; "A10";
      "A11"; "A12"; "A13"; "A14"; "A15"; "A16"; "A17"; "A18"; "A19"; "A20";
      "A21"; "A22"; "A23"; "A24"; "A25"; "A26"; "A27"; "A28"; "A29"; "A30";
      "A31"; "A32"; "A33"; "A34"; "A35"; "A36"; "A37"; "A38" ].
Proof. vm_compute. reflexivity. Qed.

Lemma df_filtered_allowed (to_dt : list string -> string -> option Z)
    (rows : list (Row string)) (y : Row Z) :
  In y (df_filtered to_dt rows) -> In (machine y) allowed_machines.
Proof.
  rewrite df_filtered_stage. intro H. apply In_stage in H.
  destruct H as (x & d & _ & _ & Hm & ->). apply mem_In. exact Hm.
Qed.

(** A group sum that wraps: the machine's worked quantity reads -2^63, its
    percentage -50.0, and the threshold drops it. *)
Lemma group_sum_wraps_around :
  exists rows,
    selected_rows wrapping_table = inr rows
    /\ ratio_table Iso.to_datetime rows
       = inr [ mkSummary "A01" (date 2024 3 2) (- 2 ^ 63) (2 ^ 62)
                         (Float64.of_hundredths (- 5000)) ]
    /\ pipeline Iso.to_datetime wrapping_table = inr empty_report.
Proof.
  eexists. split; [reflexivity|]. split; vm_compute; reflexivity.
Qed.

(** ** The example scenario *)

(** C1. On the four example rows the A99 row and the bad-date row are
    excluded, the machine-level table is the single row A01 with last work
    date 2024-01-06, worked quantity 150, WPC quantity 35 and WPCS % 23.33,
    and the grand total is 150, 35 and 23.33. *)
Theorem C1_example_scenario (s1 s2 s3 s4 : string) :
  selected_rows (example_table s1 s2 s3 s4) = inr (example_rows s1 s2 s3 s4)
  /\ df_filtered Iso.to_datetime (example_rows s1 s2 s3 s4)
     = [ mkRow (date 2024 1 5) (Str s1) "A01" 100 30;
         mkRow (date 2024 1 6) (Str s2) "A01" 50 5 ]
  /\ pipeline Iso.to_datetime (example_table s1 s2 s3 s4)
     = inr (mkReport
              [ mkSummary "A01" (date 2024 1 6) 150 35
                          (Float64.of_hundredths 2333) ]
              (mkTotal 150 35 (Float64.of_hundredths 2333)))
  /\ Float64.geb (Float64.of_hundredths 2333) threshold = true
  /\ Iso.parse "2024-01-06" = Some (date 2024 1 6)
  /\ Iso.parse "bad-date" = None
  /\ Str.mem "A99" allowed_machines = false.
Proof. repeat split; vm_compute; reflexivity. Qed.

(** ** The second table *)

Lemma sample_selected : selected_rows sample_table = inr sample_rows.
Proof. vm_compute. reflexivity. Qed.

Lemma sample_pipeline : pipeline Iso.to_datetime sample_table = inr sample_report.
Proof. vm_compute. reflexivity. Qed.

(** ** Grand total *)

(** C2, as the code has it.  The grand total's worked quantity and WPC
    quantity are the 64-bit sums over the rows of the final machine-level
    table, which are the rows that passed the threshold: the exact sums
    whenever those fit in 64 bits, the exact sums modulo 2^64 in general.
    Its percentage is [round(wpc / worked * 100, 2)] on the two totals, or
    0 when the total worked quantity is 0. *)
Theorem C2_total_consistency (to_dt : list string -> string -> option Z)
    (df : DataFrame) (rep : Report) :
  pipeline to_dt df = inr rep ->
  total_worked_qty (summary_total rep)
    = sum (map ms_worked_qty (summary_df rep))
  /\ total_wpc_qty (summary_total rep)
     = sum (map ms_wpc_qty (summary_df rep))
  /\ total_wpcs_percent (summary_total rep)
     = (if total_worked_qty (summary_total rep) =? 0 then Float64.zero
        else Float64.np_round2
               (Float64.mul
                  (Float64.np_truediv (total_wpc_qty (summary_total rep))
                                      (total_worked_qty (summary_total rep)))
                  (Float64.of_int 100)))
  /\ (exists rows pre,
        selected_rows df = inr rows
        /\ ratio_table to_dt rows = inr pre
        /\ summary_df rep
           = filter (fun r => Float64.geb (wpcs_pct r) threshold) pre)
  /\ total_worked_qty (summary_total rep)
     = wrap64 (exact_sum (map ms_worked_qty (summary_df rep)))
  /\ total_wpc_qty (summary_total rep)
     = wrap64 (exact_sum (map ms_wpc_qty (summary_df rep)))
  /\ (int64_range (exact_sum (map ms_worked_qty (summary_df rep))) ->
      total_worked_qty (summary_total rep)
      = exact_sum (map ms_worked_qty (summary_df rep)))
  /\ (int64_range (exact_sum (map ms_wpc_qty (summary_df rep))) ->
      total_wpc_qty (summary_total rep)
      = exact_sum (map ms_wpc_qty (summary_df rep))).
Proof.
  intro H. apply pipeline_inr in H.
  destruct H as (rows & Hsel & Hpre & Hsum & Htot).
  rewrite Htot. unfold totals, total_percent. cbn [total_worked_qty
    total_wpc_qty total_wpcs_percent].
  split; [reflexivity|]. split; [reflexivity|]. split.
  - destruct (sum (map ms_worked_qty (summary_df rep)) =? 0); reflexivity.
  - split.
    + exists rows. eexists.
      split; [exact Hsel|]. split; [exact Hpre | exact Hsum].
    + split; [apply sum_wrap64|]. split; [apply sum_wrap64|].
      split; apply sum_exact.
Qed.

Lemma C2_total_consistency_witness :
  pipeline Iso.to_datetime sample_table = inr sample_report
  /\ total_worked_qty (summary_total sample_report)
     = sum (map ms_worked_qty (summary_df sample_report))
  /\ total_wpc_qty (summary_total sample_report)
     = sum (map ms_wpc_qty (summary_df sample_report)).
Proof.
  split; [exact sample_pipeline|].
  destruct (C2_total_consistency Iso.to_datetime sample_table sample_report
              sample_pipeline) as (H1 & H2 & _).
  split; [exact H1 | exact H2].
Defined.

(** The claim as stated fails: two machines at 100 % with a worked
    quantity of 2^62 each are both kept, and the grand total reads -2^63
    where the two rows add up to 2^63. *)
Lemma C2_counterexample :
  pipeline Iso.to_datetime overflow_table = inr overflow_report
  /\ map ms_worked_qty (summary_df overflow_report) = [2 ^ 62; 2 ^ 62]
  /\ exact_sum (map ms_worked_qty (summary_df overflow_report)) = 2 ^ 63
  /\ total_worked_qty (summary_total overflow_report) = - 2 ^ 63
  /\ total_worked_qty (summary_total overflow_report)
     <> exact_sum (map ms_worked_qty (summary_df overflow_report)).
Proof.
  split; [vm_compute; reflexivity|]. split; [reflexivity|].
  split; [reflexivity|]. split; [reflexivity|]. discriminate.
Qed.

(** ** Derived ratio *)

(** C3. The machine-level table is computed without an exception; it has
    one row per machine group, the row carries the group's two sums (64-bit
    sums, as the columns have them), and its WPCS % is
    [round(wpc / worked * 100, 2)] on these two when the summed worked
    quantity is not 0 and 0 when it is 0. *)
Theorem C3_ratio_correctness (to_dt : list string -> string -> option Z)
    (rows : list (Row string)) :
  exists pre,
    ratio_table to_dt rows = inr pre
    /\ map ms_machine pre = group_keys (df_filtered to_dt rows)
    /\ forall r, In r pre ->
         ms_worked_qty r
           = sum (map worked_qty
                      (group (df_filtered to_dt rows) (ms_machine r)))
         /\ ms_wpc_qty r
            = sum (map wpc_qty
                       (group (df_filtered to_dt rows) (ms_machine r)))
         /\ (ms_worked_qty r <> 0 ->
             py_truediv (ms_wpc_qty r) (ms_worked_qty r)
               = inr (Float64.int_truediv (ms_wpc_qty r) (ms_worked_qty r))
             /\ wpcs_pct r
                = Float64.py_round2
                    (Float64.mul
                       (Float64.int_truediv (ms_wpc_qty r) (ms_worked_qty r))
                       (Float64.of_int 100)))
         /\ (ms_worked_qty r = 0 -> wpcs_pct r = Float64.zero).
Proof.
  eexists. split; [apply ratio_table_eq|]. split.
  - rewrite map_map. unfold machine_row. cbn [ms_machine]. apply map_id.
  - intros r Hr. apply in_map_iff in Hr. destruct Hr as (k & <- & _).
    unfold machine_row. cbn [ms_machine ms_worked_qty ms_wpc_qty wpcs_pct].
    repeat split.
    + unfold py_truediv. apply Z.eqb_neq in H. rewrite H. reflexivity.
    + unfold percent_value. apply Z.eqb_neq in H. rewrite H. reflexivity.
    + intro H. unfold percent_value. rewrite H. reflexivity.
Qed.

(** ** Threshold *)

(** C4. Every row of the final machine-level table has WPCS % at least 20:
    the table is the computed one without the rows below 20, the grand total
    is computed from it, and a machine whose contributing rows have worked
    quantities summing to 0 has no row in it. *)
Theorem C4_threshold_invariant (to_dt : list string -> string -> option Z)
    (df : DataFrame) (rep : Report) :
  pipeline to_dt df = inr rep ->
  (forall r, In r (summary_df rep) ->
     Float64.geb (wpcs_pct r) threshold = true)
  /\ exists rows pre,
       selected_rows df = inr rows
       /\ ratio_table to_dt rows = inr pre
       /\ (forall r, In r pre -> Float64.geb (wpcs_pct r) threshold = false ->
             ~ In r (summary_df rep))
       /\ summary_total rep = totals (summary_df rep)
       /\ (forall k,
             sum (map worked_qty
                      (filter (contributes to_dt (map work_date rows) k) rows))
               = 0 ->
             forall r, In r (summary_df rep) -> ms_machine r <> k).
Proof.
  intro H. apply pipeline_inr in H.
  destruct H as (rows & Hsel & Hpre & Hsum & Htot).
  split.
  - intros r Hr. rewrite Hsum in Hr. apply In_summary in Hr. tauto.
  - exists rows. eexists. split; [exact Hsel|]. split; [exact Hpre|].
    split; [|split; [exact Htot|]].
    + intros r _ Hlow Hin. rewrite Hsum in Hin. apply In_summary in Hin.
      destruct Hin as [Hge _]. congruence.
    + intros k Hzero r Hr Hk. rewrite Hsum in Hr. apply In_summary in Hr.
      destruct Hr as (Hge & _ & Hrow). rewrite Hrow, Hk in Hge.
      unfold machine_row in Hge. cbn [wpcs_pct] in Hge.
      rewrite df_filtered_stage in Hge.
      rewrite (group_stage_column to_dt _ (@worked_qty)) in Hge
        by reflexivity.
      rewrite Hzero in Hge. unfold percent_value in Hge. simpl in Hge.
      rewrite zero_below_threshold in Hge. discriminate.
Qed.

Lemma C4_threshold_invariant_witness :
  pipeline Iso.to_datetime sample_table = inr sample_report
  /\ forall r, In r (summary_df sample_report) ->
       Float64.geb (wpcs_pct r) threshold = true.
Proof.
  split; [exact sample_pipeline|].
  exact (proj1 (C4_threshold_invariant Iso.to_datetime sample_table
                  sample_report sample_pipeline)).
Defined.

(** ** Allow-list *)

(** C5. The allow-list is the 38 codes A01 to A38; only rows whose machine
    is one of them, compared as strings, enter the aggregation, and every
    row of the final machine-level table carries one of them. *)
Theorem C5_allow_list_invariant (to_dt : list string -> string -> option Z)
    (df : DataFrame) (rep : Report) :
  pipeline to_dt df = inr rep ->
  allowed_machines
  = [ "A01"; "A02"; "A03"; "A04"; "A05"; "A06"; "A07"; "A08"; "A09"; "A10";
      "A11"; "A12"; "A13"; "A14"; "A15"; "A16"; "A17"; "A18"; "A19"; "A20";
      "A21"; "A22"; "A23"; "A24"; "A25"; "A26"; "A27"; "A28"; "A29"; "A30";
      "A31"; "A32"; "A33"; "A34"; "A35"; "A36"; "A37"; "A38" ]
  /\ (forall r, In r (summary_df rep) -> In (ms_machine r) allowed_machines)
  /\ exists rows,
       selected_rows df = inr rows
       /\ (forall y, In y (df_filtered to_dt rows) ->
             In (machine y) allowed_machines)
       /\ (forall x r, In x rows -> ~ In (machine x) allowed_machines ->
             In r (summary_df rep) -> ms_machine r <> machine x).
Proof.
  intro H. apply pipeline_inr in H.
  destruct H as (rows & Hsel & Hpre & Hsum & Htot).
  assert (Hall : forall r, In r (summary_df rep) ->
                           In (ms_machine r) allowed_machines).
  { intros r Hr. rewrite Hsum in Hr. apply In_summary in Hr.
    destruct Hr as (_ & Hk & _). apply group_keys_In in Hk.
    destruct Hk as (y & Hy & <-). eapply df_filtered_allowed; eassumption. }
  split; [apply allowed_machines_eq|]. split; [exact Hall|].
  exists rows. split; [exact Hsel|]. split.
  - intros y Hy. eapply df_filtered_allowed; eassumption.
  - intros x r _ Hx Hr Heq. apply Hx. rewrite <- Heq. auto.
Qed.

Lemma C5_allow_list_invariant_witness :
  pipeline Iso.to_datetime sample_table = inr sample_report
  /\ forall r, In r (summary_df sample_report) ->
       In (ms_machine r) allowed_machines.
Proof.
  split; [exact sample_pipeline|].
  exact (proj1 (proj2 (C5_allow_list_invariant Iso.to_datetime sample_table
                         sample_report sample_pipeline))).
Defined.

(** ** Unparseable dates *)

Lemma group_not_nil {D} (rows : list (Row D)) (k : string) :
  In k (group_keys rows) -> group rows k <> [].
Proof.
  intro H. apply group_keys_In in H. destruct H as (y & Hy & Hk).
  assert (In y (group rows k)) as Hin.
  { unfold group. apply filter_In. split; [exact Hy|].
    apply String.eqb_eq. exact Hk. }
  intro E. rewrite E in Hin. exact Hin.
Qed.

(** C9. A row whose work date does not parse raises nothing and is outside
    every aggregate: each row of the machine-level table sums the two
    quantities (in the columns' 64-bit arithmetic) over the loaded rows of
    that machine whose date parsed, and its last work date is the greatest
    parsed date among them. *)
Theorem C9_date_drop (to_dt : list string -> string -> option Z)
    (df : DataFrame) (rows : list (Row string)) :
  selected_rows df = inr rows ->
  exists rep,
    pipeline to_dt df = inr rep
    /\ forall r, In r (summary_df rep) ->
         let col := map work_date rows in
         let src := filter (contributes to_dt col (ms_machine r)) rows in
         (forall x, In x rows -> to_dt col (work_date x) = None -> ~ In x src)
         /\ ms_worked_qty r = sum (map worked_qty src)
         /\ ms_wpc_qty r = sum (map wpc_qty src)
         /\ (exists x, In x src
                       /\ to_dt col (work_date x) = Some (last_work_date r))
         /\ (forall x d, In x src -> to_dt col (work_date x) = Some d ->
                         d <= last_work_date r).
Proof.
  intro Hsel. rewrite (pipeline_of_rows _ _ _ Hsel), transform_eq. cbv zeta.
  eexists. split; [reflexivity|]. cbn [summary_df].
  intros r Hr. apply In_summary in Hr. destruct Hr as (_ & Hk & Hrow).
  set (k := ms_machine r) in *. rewrite Hrow. unfold machine_row.
  cbn [ms_worked_qty ms_wpc_qty last_work_date].
  rewrite df_filtered_stage in *.
  set (col := map work_date rows) in *.
  destruct (max_date_spec (map work_date (group (stage to_dt col rows) k)))
    as [Hmax Hub].
  { intro E. apply map_eq_nil in E. revert E. apply group_not_nil. exact Hk. }
  split; [|split; [|split; [|split]]].
  - intros x _ Hnone Hin. apply filter_In in Hin. destruct Hin as [_ Hc].
    unfold contributes in Hc. rewrite Hnone in Hc. discriminate.
  - rewrite (group_stage_column to_dt col (@worked_qty)) by reflexivity.
    reflexivity.
  - rewrite (group_stage_column to_dt col (@wpc_qty)) by reflexivity.
    reflexivity.
  - apply group_stage_dates in Hmax. destruct Hmax as (x & Hx & Hc & Hd).
    exists x. split; [|exact Hd]. apply filter_In. auto.
  - intros x d Hx Hd. apply filter_In in Hx. destruct Hx as [Hx Hc].
    rewrite Forall_forall in Hub. apply Hub.
    apply group_stage_dates. exists x. auto.
Qed.

Lemma C9_date_drop_witness :
  selected_rows sample_table = inr sample_rows
  /\ exists rep,
       pipeline Iso.to_datetime sample_table = inr rep
       /\ forall r, In r (summary_df rep) ->
            ms_worked_qty r
            = sum (map worked_qty
                       (filter (contributes Iso.to_datetime
                                  (map work_date sample_rows) (ms_machine r))
                               sample_rows)).
Proof.
  split; [exact sample_selected|].
  destruct (C9_date_drop Iso.to_datetime sample_table sample_rows
              sample_selected) as (rep & Hrep & Hrows).
  exists rep. split; [exact Hrep|].
  intros r Hr. exact (proj1 (proj2 (Hrows r Hr))).
Defined.

(** ** Nothing survives *)

Lemma no_element_nil {A} (l : list A) : (forall x, ~ In x l) -> l = [].
Proof.
  destruct l as [|a r]; [reflexivity|]. intro H. destruct (H a). now left.
Qed.

Lemma filter_all_false {A} (f : A -> bool) (l : list A) :
  (forall x, In x l -> f x = false) -> filter f l = [].
Proof.
  intro H. apply no_element_nil. intros x Hx. apply filter_In in Hx.
  destruct Hx as [Hx Hf]. rewrite (H x Hx) in Hf. discriminate.
Qed.

Lemma transform_no_rows (to_dt : list string -> string -> option Z)
    (rows : list (Row string)) :
  df_filtered to_dt rows = [] -> transform to_dt rows = inr empty_report.
Proof. intro H. rewrite transform_eq, H. reflexivity. Qed.

(** C10. When every date is unparseable, or no machine is in the
    allow-list, or every machine is below the threshold, the pipeline
    succeeds with an empty machine-level table and the grand total 0, 0, 0. *)
Theorem C10_empty_report (to_dt : list string -> string -> option Z)
    (df : DataFrame) (rows : list (Row string)) :
  selected_rows df = inr rows ->
  (forall x, In x rows -> to_dt (map work_date rows) (work_date x) = None)
  \/ (forall x, In x rows -> ~ In (machine x) allowed_machines)
  \/ (forall pre, ratio_table to_dt rows = inr pre ->
        forall r, In r pre -> Float64.geb (wpcs_pct r) threshold = false) ->
  pipeline to_dt df = inr (mkReport [] (mkTotal 0 0 Float64.zero)).
Proof.
  intros Hsel Hcase. rewrite (pipeline_of_rows _ _ _ Hsel).
  destruct Hcase as [Hdate | [Hmach | Hlow]].
  - apply transform_no_rows. apply no_element_nil. intros y Hy.
    rewrite df_filtered_stage in Hy. apply In_stage in Hy.
    destruct Hy as (x & d & Hx & Hd & _). rewrite (Hdate x Hx) in Hd.
    discriminate.
  - apply transform_no_rows. apply no_element_nil. intros y Hy.
    rewrite df_filtered_stage in Hy. apply In_stage in Hy.
    destruct Hy as (x & d & Hx & _ & Hm & _). apply mem_In in Hm.
    exact (Hmach x Hx Hm).
  - rewrite transform_eq. cbv zeta. unfold keep_above_threshold.
    rewrite filter_all_false; [reflexivity|].
    apply Hlow. apply ratio_table_eq.
Qed.

Lemma C10_empty_report_witness :
  selected_rows undated_table = inr undated_rows
  /\ (forall x, In x undated_rows ->
        Iso.to_datetime (map work_date undated_rows) (work_date x) = None)
  /\ pipeline Iso.to_datetime undated_table
     = inr (mkReport [] (mkTotal 0 0 Float64.zero)).
Proof.
  assert (Hsel : selected_rows undated_table = inr undated_rows)
    by reflexivity.
  assert (Hdates : forall x, In x undated_rows ->
            Iso.to_datetime (map work_date undated_rows) (work_date x) = None).
  { intros x [<- | [<- | []]]; reflexivity. }
  split; [exact Hsel|]. split; [exact Hdates|].
  apply (C10_empty_report Iso.to_datetime undated_table undated_rows Hsel).
  left. exact Hdates.
Defined.

(** ** Column selection *)

Lemma get_Some (df : DataFrame) (k : string) :
  In k (Frame.columns df) -> exists s, Frame.get df k = Some s.
Proof.
  unfold Frame.columns. induction df as [|[n s] r IH]; simpl; [tauto|].
  intros [-> | H].
  - rewrite String.eqb_refl. eauto.
  - destruct (String.eqb n k); eauto.
Qed.

Lemma required_columns_eq :
  required_columns = ["Work date"; "Shift"; "Machine"; "Q`ty"; "WPCS Qty"].
Proof. reflexivity. Qed.

(** C6. When one of the five required columns is absent, the selection
    raises a [KeyError] naming the absent ones and the pipeline ends with
    it, whatever the date parser; when the five are present, the selection
    has exactly the five columns under their canonical names, each holding
    the source column. *)
Theorem C6_missing_column (to_dt : list string -> string -> option Z)
    (df : DataFrame) :
  ((exists c, In c ["Work date"; "Shift"; "Machine"; "Q`ty"; "WPCS Qty"]
              /\ ~ In c (Frame.columns df)) ->
   exists missing,
     missing <> []
     /\ (forall c, In c missing <->
                   In c required_columns /\ ~ In c (Frame.columns df))
     /\ df_selected df = inl (KeyError missing)
     /\ pipeline to_dt df = inl (KeyError missing))
  /\ ((forall c, In c ["Work date"; "Shift"; "Machine"; "Q`ty"; "WPCS Qty"] ->
                 In c (Frame.columns df)) ->
      exists sel,
        df_selected df = inr sel
        /\ Frame.columns sel
           = ["work date"; "shift"; "machine"; "worked Q'ty"; "WPC qty"]
        /\ forall src dst, In (src, dst) column_map ->
             Frame.get sel dst = Frame.get df src).
Proof.
  split.
  - intros (c & Hc & Habs).
    exists (filter (fun k => negb (Str.mem k (Frame.columns df)))
                   required_columns).
    assert (Hchar : forall x,
              In x (filter (fun k => negb (Str.mem k (Frame.columns df)))
                           required_columns) <->
              In x required_columns /\ ~ In x (Frame.columns df)).
    { intro x. rewrite filter_In, negb_true_iff, mem_false_In. tauto. }
    assert (Hne : filter (fun k => negb (Str.mem k (Frame.columns df)))
                         required_columns <> []).
    { intro E. assert (In c []) as Hin; [|exact Hin].
      rewrite <- E. apply Hchar. auto. }
    split; [exact Hne|]. split; [exact Hchar|].
    assert (Hsel : df_selected df
                   = inl (KeyError
                            (filter (fun k => negb (Str.mem k (Frame.columns df)))
                                    required_columns))).
    { unfold df_selected, Frame.getitem.
      destruct (filter (fun k => negb (Str.mem k (Frame.columns df)))
                       required_columns); [congruence | reflexivity]. }
    split; [exact Hsel|].
    unfold pipeline, selected_rows. rewrite Hsel. reflexivity.
  - intro Hall.
    destruct (get_Some df "Work date") as [s1 H1]; [apply Hall; simpl; tauto|].
    destruct (get_Some df "Shift") as [s2 H2]; [apply Hall; simpl; tauto|].
    destruct (get_Some df "Machine") as [s3 H3]; [apply Hall; simpl; tauto|].
    destruct (get_Some df "Q`ty") as [s4 H4]; [apply Hall; simpl; tauto|].
    destruct (get_Some df "WPCS Qty") as [s5 H5]; [apply Hall; simpl; tauto|].
    unfold df_selected, Frame.getitem.
    rewrite filter_all_false.
    + rewrite required_columns_eq. cbn [flat_map app].
      rewrite H1, H2, H3, H4, H5. eexists. split; [reflexivity|].
      split; [reflexivity|].
      intros src dst Hin. simpl in Hin.
      destruct Hin as [E | [E | [E | [E | [E | []]]]]];
        injection E as <- <-; symmetry; assumption.
    + intros x Hx. apply negb_false_iff, mem_In, Hall. exact Hx.
Qed.

Lemma C6_missing_column_witness :
  (exists missing,
     pipeline Iso.to_datetime machineless_table = inl (KeyError missing))
  /\ (exists sel,
        df_selected sample_table = inr sel
        /\ Frame.columns sel
           = ["work date"; "shift"; "machine"; "worked Q'ty"; "WPC qty"]).
Proof.
  split.
  - destruct (proj1 (C6_missing_column Iso.to_datetime machineless_table))
      as (missing & _ & _ & _ & H).
    + exists "Machine". split; [simpl; tauto|].
      simpl. intros [E | [E | [E | [E | []]]]]; discriminate.
    + exists missing. exact H.
  - destruct (proj2 (C6_missing_column Iso.to_datetime sample_table))
      as (sel & H1 & H2 & _).
    + intros c Hc. simpl in Hc. simpl.
      destruct Hc as [<- | [<- | [<- | [<- | [<- | []]]]]]; tauto.
    + exists sel. split; assumption.
Defined.

(** ** Loader *)

(** C7. The loader looks at the lower-cased last dot-separated segment of
    the path: [xlsx] and [xls] go to the workbook reader, [csv] to the
    delimited-text reader, and anything else raises [ValueError] with no
    file read, so that the run only shows the error. *)
Theorem C7_loader_dispatch (env : Env) (input_file : string) :
  (Str.mem (file_ext input_file) ["xlsx"; "xls"] = true ->
   load env input_file = ([ReadExcel input_file], read_excel env input_file))
  /\ (file_ext input_file = "csv" ->
      load env input_file = ([ReadCsv input_file], read_csv env input_file))
  /\ (Str.mem (file_ext input_file) ["xlsx"; "xls"; "csv"] = false ->
      load env input_file = ([], inl (ValueError unsupported))
      /\ forall output_file,
           generate_report env input_file output_file
           = [ShowError (ValueError unsupported)])
  /\ (forall stem e, Str.has_char "." e = false ->
        file_ext (String.append stem (String "." e)) = Str.lower e).
Proof.
  split; [|split; [|split]].
  - intro H. unfold load. rewrite H. unfold bind, emit, lift.
    destruct (read_excel env input_file); reflexivity.
  - intro H. unfold load. rewrite H. simpl. unfold bind, emit, lift.
    destruct (read_csv env input_file); reflexivity.
  - intro H. assert (Hload : load env input_file
                             = ([], inl (ValueError unsupported))).
    { unfold load. simpl in H. apply orb_false_iff in H. destruct H as [Ha H].
      apply orb_false_iff in H. destruct H as [Hb H].
      apply orb_false_iff in H. destruct H as [Hc _].
      simpl. rewrite Ha, Hb, Hc. reflexivity. }
    split; [exact Hload|]. intro output_file.
    unfold generate_report, body, prepare. rewrite Hload. reflexivity.
  - intros stem e H. apply file_ext_dotted. exact H.
Qed.

Lemma C7_loader_dispatch_witness :
  load sample_env "logs/March.XLSX"
    = ([ReadExcel "logs/March.XLSX"],
       read_excel sample_env "logs/March.XLSX")
  /\ load sample_env "march.Csv"
     = ([ReadCsv "march.Csv"], read_csv sample_env "march.Csv")
  /\ generate_report sample_env "march.txt" "out.xlsx"
     = [ShowError (ValueError unsupported)].
Proof.
  split; [|split].
  - apply (proj1 (C7_loader_dispatch sample_env "logs/March.XLSX")).
    reflexivity.
  - apply (proj1 (proj2 (C7_loader_dispatch sample_env "march.Csv"))).
    reflexivity.
  - apply (proj1 (proj2 (proj2 (C7_loader_dispatch sample_env "march.txt")))).
    reflexivity.
Defined.

(** ** Failed runs *)

Lemma prepare_log (env : Env) (input_file : string) :
  forallb is_read (fst (prepare env input_file)) = true.
Proof.
  unfold prepare, load.
  destruct (Str.mem (file_ext input_file) ["xlsx"; "xls"]).
  - unfold bind, emit, lift. destruct (read_excel env input_file) as [e|df].
    + reflexivity.
    + destruct (pipeline (to_datetime env) df); reflexivity.
  - destruct (String.eqb (file_ext input_file) "csv").
    + unfold bind, emit, lift. destruct (read_csv env input_file) as [e|df].
      * reflexivity.
      * destruct (pipeline (to_datetime env) df); reflexivity.
    + reflexivity.
Qed.

Lemma reads_only (path : string) (l : list event) :
  forallb is_read l = true ->
  existsb is_popup l = false /\ existsb is_error l = false
  /\ existsb (writes_to path) l = false.
Proof.
  induction l as [|ev r IH]; simpl; [auto|].
  intro H. apply andb_true_iff in H. destruct H as [Hev Hr].
  destruct (IH Hr) as (H1 & H2 & H3). rewrite H1, H2, H3.
  destruct ev; simpl in *; try discriminate; auto.
Qed.

Lemma existsb_app_false {A} (f : A -> bool) (l l' : list A) :
  existsb f l = false -> existsb f (l ++ l') = existsb f l'.
Proof. intro H. rewrite existsb_app, H. reflexivity. Qed.

(** C8, as the code has it.  Every run shows exactly one message box, the
    last event of the run.  A run that fails in the loader or in the
    transformer writes no output file.  Once the two tables are written the
    output file is on disk, also when the run then fails while the workbook
    is loaded again or saved: nothing removes it. *)
Theorem C8_failure_outcome (env : Env) (input_file output_file : string) :
  (exists l ev,
     generate_report env input_file output_file = l ++ [ev]
     /\ is_popup ev = true /\ existsb is_popup l = false)
  /\ (forall e, snd (prepare env input_file) = inl e ->
        failed (generate_report env input_file output_file) = true
        /\ left_on_disk output_file
             (generate_report env input_file output_file) = false)
  /\ (forall r, snd (prepare env input_file) = inr r ->
        to_excel env output_file r = None ->
        left_on_disk output_file
          (generate_report env input_file output_file) = true
        /\ (failed (generate_report env input_file output_file) = true <->
            load_workbook env output_file <> None
            \/ save env output_file r <> None)).
Proof.
  pose proof (prepare_log env input_file) as Hlog.
  unfold generate_report, body, failed, left_on_disk.
  destruct (prepare env input_file) as [l [e|r]]; cbn [fst snd] in *;
    destruct (reads_only output_file l Hlog) as (Hp & He & Hw).
  - cbn [bind]. split; [|split].
    + exists l, (ShowError e). auto.
    + intros e' _. rewrite existsb_app, He, existsb_app, Hw. auto.
    + intros r E. discriminate.
  - unfold render, bind, attempt, emit, raise, ret.
    destruct (to_excel env output_file r) as [[e1 [|]]|] eqn:E1;
      [| |destruct (load_workbook env output_file) as [e2|] eqn:E2;
          [|destruct (save env output_file r) as [e3|] eqn:E3]];
      cbn [app]; rewrite ?app_nil_r.
    + split; [|split].
      * exists (l ++ [WritePartial output_file]), (ShowError e1).
        split; [rewrite <- app_assoc; reflexivity|]. split; [reflexivity|].
        rewrite existsb_app, Hp. reflexivity.
      * intros e E. discriminate.
      * intros r' E. injection E as <-. congruence.
    + split; [|split].
      * exists l, (ShowError e1). auto.
      * intros e E. discriminate.
      * intros r' E. injection E as <-. congruence.
    + split; [|split].
      * exists (l ++ [WriteExcel output_file r; LoadWorkbook output_file]),
               (ShowError e2).
        split; [rewrite <- app_assoc; reflexivity|]. split; [reflexivity|].
        rewrite existsb_app, Hp. reflexivity.
      * intros e E. discriminate.
      * intros r' E _. injection E as <-.
        rewrite <- app_assoc, (existsb_app_false _ _ _ Hw),
          (existsb_app_false _ _ _ He).
        cbn. rewrite String.eqb_refl. split; [reflexivity|].
        split; [intros _; left; discriminate | reflexivity].
    + split; [|split].
      * exists (l ++ [WriteExcel output_file r; LoadWorkbook output_file]),
               (ShowError e3).
        split; [rewrite <- app_assoc; reflexivity|]. split; [reflexivity|].
        rewrite existsb_app, Hp. reflexivity.
      * intros e E. discriminate.
      * intros r' E _. injection E as <-.
        rewrite <- app_assoc, (existsb_app_false _ _ _ Hw),
          (existsb_app_false _ _ _ He).
        cbn. rewrite String.eqb_refl. split; [reflexivity|].
        split; [intros _; right; rewrite E3; discriminate | reflexivity].
    + split; [|split].
      * exists (l ++ [WriteExcel output_file r; LoadWorkbook output_file;
                      SaveWorkbook output_file r]),
               (ShowInfo output_file).
        split; [rewrite <- app_assoc; reflexivity|]. split; [reflexivity|].
        rewrite existsb_app, Hp. reflexivity.
      * intros e E. discriminate.
      * intros r' E _. injection E as <-.
        rewrite <- app_assoc, (existsb_app_false _ _ _ Hw),
          (existsb_app_false _ _ _ He).
        cbn. rewrite String.eqb_refl. split; [reflexivity|].
        split; [discriminate | intros [H | H]; congruence].
Qed.

Lemma C8_failure_outcome_witness :
  snd (prepare faulty_env "march.csv") = inr sample_report
  /\ to_excel faulty_env "out.xlsx" sample_report = None
  /\ left_on_disk "out.xlsx" (generate_report faulty_env "march.csv" "out.xlsx")
     = true.
Proof.
  assert (H1 : snd (prepare faulty_env "march.csv") = inr sample_report)
    by (vm_compute; reflexivity).
  assert (H2 : to_excel faulty_env "out.xlsx" sample_report = None)
    by reflexivity.
  split; [exact H1|]. split; [exact H2|].
  exact (proj1 (proj2 (proj2 (C8_failure_outcome faulty_env "march.csv"
                                "out.xlsx")) sample_report H1 H2)).
Defined.

(** The claim as stated fails: the final save is refused, the run reports
    the error, and the file written by the [ExcelWriter] block is on disk. *)
Lemma C8_counterexample :
  generate_report faulty_env "march.csv" "out.xlsx"
  = [ ReadCsv "march.csv"; WriteExcel "out.xlsx" sample_report;
      LoadWorkbook "out.xlsx"; ShowError (OSError "Permission denied") ]
  /\ failed (generate_report faulty_env "march.csv" "out.xlsx") = true
  /\ left_on_disk "out.xlsx"
       (generate_report faulty_env "march.csv" "out.xlsx") = true.
Proof. repeat split; vm_compute; reflexivity. Qed.

(** * Further properties of the transformer *)

(** ** Order and number of the machine rows *)

Lemma str_lt_before (a b : string) : str_lt a b <-> str_before a b.
Proof. unfold str_lt, str_before. symmetry. apply String_as_OT.cmp_lt. Qed.

Lemma str_lt_irrefl (a : string) : ~ str_lt a a.
Proof. intro H. apply (String_as_OT.lt_not_eq a a H). reflexivity. Qed.

Lemma sorted_filter (p : string -> bool) (ks : list string) :
  StronglySorted str_lt ks -> StronglySorted str_lt (filter p ks).
Proof.
  induction 1 as [|k r Hs IH Hall]; simpl; [constructor|].
  destruct (p k); [|exact IH]. constructor; [exact IH|].
  rewrite Forall_forall in *. intros x Hx. apply filter_In in Hx.
  apply Hall. tauto.
Qed.

Lemma summary_machines (f : list (Row Z)) (ks : list string) :
  map ms_machine (keep_above_threshold (map (machine_row f) ks))
  = filter (fun k => Float64.geb (wpcs_pct (machine_row f k)) threshold) ks.
Proof.
  unfold keep_above_threshold. induction ks as [|k r IH]; [reflexivity|].
  cbn [map filter].
  destruct (Float64.geb (wpcs_pct (machine_row f k)) threshold);
    cbn [map]; rewrite IH; reflexivity.
Qed.

Lemma sorted_same_elements (l1 l2 : list string) :
  StronglySorted str_lt l1 -> StronglySorted str_lt l2 ->
  (forall x, In x l1 <-> In x l2) -> l1 = l2.
Proof.
  intro H1. revert l2.
  induction H1 as [|a r1 Hs1 IH Ha]; intros l2 H2 Hiff.
  - destruct l2 as [|b r2]; [reflexivity|].
    destruct (proj2 (Hiff b)). now left.
  - destruct H2 as [|b r2 Hs2 Hb].
    + destruct (proj1 (Hiff a)). now left.
    + rewrite Forall_forall in Ha, Hb.
      assert (a = b) as <-.
      { destruct (proj1 (Hiff a)) as [E | Hin]; [now left | auto |].
        destruct (proj2 (Hiff b)) as [E | Hin']; [now left | auto |].
        destruct (str_lt_irrefl a).
        eapply String_as_OT.lt_trans; [apply Ha | apply Hb]; assumption. }
      f_equal. apply IH; [exact Hs2|].
      intro x. split; intro Hx.
      * destruct (proj1 (Hiff x)) as [E | Hin]; [now right | | exact Hin].
        subst x. destruct (str_lt_irrefl a). auto.
      * destruct (proj2 (Hiff x)) as [E | Hin]; [now right | | exact Hin].
        subst x. destruct (str_lt_irrefl a). auto.
Qed.

(** X1. The machine-level table has one row per machine, in strictly
    ascending order of the machine codes. *)
Theorem summary_sorted_by_machine (to_dt : list string -> string -> option Z)
    (df : DataFrame) (rep : Report) :
  pipeline to_dt df = inr rep ->
  StronglySorted str_before (map ms_machine (summary_df rep))
  /\ NoDup (map ms_machine (summary_df rep)).
Proof.
  intro H. apply pipeline_inr in H.
  destruct H as (rows & _ & _ & Hsum & _).
  assert (Hs : StronglySorted str_lt (map ms_machine (summary_df rep))).
  { rewrite Hsum, summary_machines. apply sorted_filter, group_keys_sorted. }
  split; [|apply sorted_NoDup; exact Hs].
  clear Hsum. induction Hs as [|k r Hs IH Hall]; constructor; [exact IH|].
  eapply Forall_impl; [|exact Hall]. intros x Hx. apply str_lt_before, Hx.
Qed.

Lemma summary_sorted_by_machine_witness :
  pipeline Iso.to_datetime sample_table = inr sample_report
  /\ NoDup (map ms_machine (summary_df sample_report)).
Proof.
  split; [exact sample_pipeline|].
  exact (proj2 (summary_sorted_by_machine Iso.to_datetime sample_table
                  sample_report sample_pipeline)).
Defined.

(** X2. The machine-level table never has more than 38 rows, so the total
    block starts on sheet row 41 at the latest. *)
Theorem summary_at_most_38_rows (to_dt : list string -> string -> option Z)
    (df : DataFrame) (rep : Report) :
  pipeline to_dt df = inr rep ->
  (List.length (summary_df rep) <= 38)%nat
  /\ (start_row_total rep + 1 <= 41)%nat.
Proof.
  intro H. pose proof H as H0. apply pipeline_inr in H.
  destruct H as (rows & _ & _ & Hsum & _).
  assert (Hlen : (List.length (map ms_machine (summary_df rep))
                  <= List.length allowed_machines)%nat).
  { apply NoDup_incl_length.
    - rewrite Hsum, summary_machines.
      apply sorted_NoDup, sorted_filter, group_keys_sorted.
    - intros k Hk. rewrite Hsum, summary_machines in Hk.
      apply filter_In in Hk. destruct Hk as [Hk _].
      apply group_keys_In in Hk. destruct Hk as (y & Hy & <-).
      eapply df_filtered_allowed; eassumption. }
  rewrite length_map in Hlen.
  change (List.length allowed_machines) with 38%nat in Hlen.
  unfold start_row_total. lia.
Qed.

Lemma summary_at_most_38_rows_witness :
  pipeline Iso.to_datetime sample_table = inr sample_report
  /\ (List.length (summary_df sample_report) <= 38)%nat.
Proof.
  split; [exact sample_pipeline|].
  exact (proj1 (summary_at_most_38_rows Iso.to_datetime sample_table
                  sample_report sample_pipeline)).
Defined.

(** ** Which machines are reported *)

Lemma contributes_group (to_dt : list string -> string -> option Z)
    (rows : list (Row string)) (k : string) :
  In k (group_keys (df_filtered to_dt rows)) <->
  exists x, In x rows /\ contributes to_dt (map work_date rows) k x = true.
Proof.
  rewrite group_keys_In, df_filtered_stage. split.
  - intros (y & Hy & Hk). apply In_stage in Hy.
    destruct Hy as (x & d & Hx & Hd & Hm & ->). exists x. split; [exact Hx|].
    unfold contributes. rewrite Hd, Hm. apply String.eqb_eq. exact Hk.
  - intros (x & Hx & Hc). unfold contributes in Hc.
    destruct (to_dt (map work_date rows) (work_date x)) as [d|] eqn:Hd;
      [|discriminate].
    apply andb_true_iff in Hc. destruct Hc as [Hm Hk].
    exists (set_date x d). split.
    + apply In_stage. exists x, d. auto.
    + apply String.eqb_eq. exact Hk.
Qed.

(** X3. A machine has a row in the final table exactly when some loaded row
    reaches its group (date parsed, machine allowed) and the percentage of
    the group's sums is at least 20. *)
Theorem machine_reported_iff (to_dt : list string -> string -> option Z)
    (df : DataFrame) (rows : list (Row string)) (rep : Report) (k : string) :
  selected_rows df = inr rows ->
  pipeline to_dt df = inr rep ->
  let src := filter (contributes to_dt (map work_date rows) k) rows in
  (exists r, In r (summary_df rep) /\ ms_machine r = k) <->
  src <> []
  /\ Float64.geb (percent_value (sum (map wpc_qty src))
                                (sum (map worked_qty src))) threshold = true.
Proof.
  intros Hsel H. rewrite (pipeline_of_rows _ _ _ Hsel), transform_eq in H.
  cbv zeta in H. injection H as <-. cbn [summary_df].
  set (f := df_filtered to_dt rows).
  assert (Hpct : wpcs_pct (machine_row f k)
                 = percent_value
                     (sum (map wpc_qty
                             (filter (contributes to_dt (map work_date rows) k)
                                     rows)))
                     (sum (map worked_qty
                             (filter (contributes to_dt (map work_date rows) k)
                                     rows)))).
  { unfold machine_row, f. cbn [wpcs_pct]. rewrite df_filtered_stage.
    rewrite (group_stage_column to_dt _ (@worked_qty)) by reflexivity.
    rewrite (group_stage_column to_dt _ (@wpc_qty)) by reflexivity.
    reflexivity. }
  assert (Hsrc : filter (contributes to_dt (map work_date rows) k) rows <> []
                 <-> In k (group_keys f)).
  { unfold f. rewrite contributes_group. split.
    - intro Hne.
      destruct (filter (contributes to_dt (map work_date rows) k) rows)
        as [|x l] eqn:E; [congruence|].
      assert (In x (x :: l)) as Hx by now left.
      rewrite <- E in Hx. apply filter_In in Hx. exists x. exact Hx.
    - intros (x & Hx & Hc) E.
      assert (In x (filter (contributes to_dt (map work_date rows) k) rows))
        as Hin by (apply filter_In; auto).
      rewrite E in Hin. exact Hin. }
  cbv zeta. rewrite Hsrc, <- Hpct. split.
  - intros (r & Hr & <-). apply In_summary in Hr.
    destruct Hr as (Hge & Hk & Hrow). rewrite <- Hrow. auto.
  - intros [Hk Hge]. exists (machine_row f k). split; [|reflexivity].
    unfold keep_above_threshold. apply filter_In. split; [|exact Hge].
    apply in_map. exact Hk.
Qed.

Lemma machine_reported_iff_witness :
  selected_rows sample_table = inr sample_rows
  /\ pipeline Iso.to_datetime sample_table = inr sample_report
  /\ ~ exists r, In r (summary_df sample_report) /\ ms_machine r = "A02".
Proof.
  split; [exact sample_selected|]. split; [exact sample_pipeline|].
  intro H.
  apply (machine_reported_iff Iso.to_datetime sample_table sample_rows
           sample_report "A02" sample_selected sample_pipeline) in H.
  destruct H as [_ H]. vm_compute in H. discriminate.
Defined.

(** ** What the report depends on *)

Lemma sum_perm (l l' : list Z) : Permutation l l' -> sum l = sum l'.
Proof.
  intro H. rewrite !sum_wrap64. f_equal.
  unfold exact_sum. induction H; simpl; lia.
Qed.

Lemma max_date_perm (l l' : list Z) :
  Permutation l l' -> max_date l = max_date l'.
Proof.
  intro H. destruct l as [|a r].
  - apply Permutation_nil in H. subst. reflexivity.
  - assert (l' <> []) as Hne'.
    { intro E. subst. apply Permutation_sym, Permutation_nil in H.
      discriminate. }
    destruct (max_date_spec (a :: r)) as [Hin Hub]; [discriminate|].
    destruct (max_date_spec l' Hne') as [Hin' Hub'].
    rewrite Forall_forall in Hub, Hub'.
    apply (Permutation_in _ H) in Hin.
    apply (Permutation_in _ (Permutation_sym H)) in Hin'.
    apply Hub' in Hin. apply Hub in Hin'. lia.
Qed.

Lemma filter_perm {A} (p : A -> bool) (l l' : list A) :
  Permutation l l' -> Permutation (filter p l) (filter p l').
Proof.
  induction 1 as [|x l l' H IH|x y l|l l' l'' H1 IH1 H2 IH2]; simpl.
  - constructor.
  - destruct (p x); [constructor|]; exact IH.
  - destruct (p x), (p y); try apply Permutation_refl. constructor.
  - eapply Permutation_trans; eassumption.
Qed.

Lemma group_forget_shift (f : list (Row Z)) (k : string) :
  map forget_shift (group f k)
  = filter (fun t => String.eqb (snd (fst (fst t))) k) (map forget_shift f).
Proof.
  unfold group. induction f as [|y r IH]; [reflexivity|]. cbn [filter map].
  change (snd (fst (fst (forget_shift y)))) with (machine y).
  destruct (String.eqb (machine y) k); cbn [map]; rewrite IH; reflexivity.
Qed.

Lemma machine_row_forget_shift (f : list (Row Z)) (k : string) :
  machine_row f k
  = let g := map forget_shift (group f k) in
    let w := sum (map (fun t => snd (fst t)) g) in
    let c := sum (map snd g) in
    mkSummary k (max_date (map (fun t => fst (fst (fst t))) g)) w c
              (percent_value c w).
Proof.
  unfold machine_row. cbv zeta. rewrite !map_map. reflexivity.
Qed.

(** The report is a function of the filtered rows without their shift, up
    to their order. *)
Lemma transform_ext (to_dt to_dt' : list string -> string -> option Z)
    (rows rows' : list (Row string)) :
  Permutation (map forget_shift (df_filtered to_dt rows))
              (map forget_shift (df_filtered to_dt' rows')) ->
  transform to_dt rows = transform to_dt' rows'.
Proof.
  intro H. rewrite !transform_eq. cbv zeta.
  set (f := df_filtered to_dt rows) in *.
  set (f' := df_filtered to_dt' rows') in *.
  assert (Hkeys : group_keys f = group_keys f').
  { apply sorted_same_elements; try apply group_keys_sorted.
    intro k. rewrite !group_keys_In.
    assert (Hm : forall (g g' : list (Row Z)),
               Permutation (map forget_shift g) (map forget_shift g') ->
               (exists r, In r g /\ machine r = k) ->
               exists r, In r g' /\ machine r = k).
    { intros g g' Hp (r & Hr & Hk).
      assert (In (forget_shift r) (map forget_shift g')) as Hin.
      { eapply Permutation_in; [exact Hp|]. apply in_map. exact Hr. }
      apply in_map_iff in Hin. destruct Hin as (r' & E & Hr').
      exists r'. split; [exact Hr'|].
      injection E as _ Em _ _. congruence. }
    split; apply Hm; [exact H | apply Permutation_sym; exact H]. }
  assert (Hrow : forall k, machine_row f k = machine_row f' k).
  { intro k. rewrite !machine_row_forget_shift, !group_forget_shift. cbv zeta.
    set (g := filter _ (map forget_shift f)).
    set (g' := filter _ (map forget_shift f')).
    assert (Hg : Permutation g g') by (apply filter_perm; exact H).
    rewrite (sum_perm _ _ (Permutation_map (fun t => snd (fst t)) Hg)).
    rewrite (sum_perm _ _ (Permutation_map snd Hg)).
    rewrite (max_date_perm _ _
               (Permutation_map (fun t => fst (fst (fst t))) Hg)).
    reflexivity. }
  rewrite Hkeys. rewrite (map_ext _ _ Hrow). reflexivity.
Qed.

Lemma stage_app (to_dt : list string -> string -> option Z) (c : list string)
    (l1 l2 : list (Row string)) :
  stage to_dt c (l1 ++ l2) = stage to_dt c l1 ++ stage to_dt c l2.
Proof.
  induction l1 as [|x r IH]; [reflexivity|].
  rewrite <- app_comm_cons, !stage_cons, IH.
  destruct (to_dt c (work_date x)); [|reflexivity].
  destruct (Str.mem (machine x) allowed_machines); reflexivity.
Qed.

Lemma stage_perm (to_dt : list string -> string -> option Z) (c : list string)
    (rows rows' : list (Row string)) :
  Permutation rows rows' ->
  Permutation (stage to_dt c rows) (stage to_dt c rows').
Proof.
  induction 1 as [|x l l' H IH|x y l|l l' l'' H1 IH1 H2 IH2].
  - apply Permutation_refl.
  - rewrite !stage_cons. destruct (to_dt c (work_date x)); [|exact IH].
    destruct (Str.mem (machine x) allowed_machines); [constructor|]; exact IH.
  - rewrite !stage_cons.
    destruct (to_dt c (work_date x)), (to_dt c (work_date y));
      try destruct (Str.mem (machine x) allowed_machines);
      try destruct (Str.mem (machine y) allowed_machines);
      try apply Permutation_refl.
    constructor.
  - eapply Permutation_trans; eassumption.
Qed.

Lemma stage_context (to_dt : list string -> string -> option Z)
    (c c' : list string) (rows : list (Row string)) :
  (forall x, In x rows -> to_dt c (work_date x) = to_dt c' (work_date x)) ->
  stage to_dt c rows = stage to_dt c' rows.
Proof.
  induction rows as [|x r IH]; intro H; [reflexivity|].
  rewrite !stage_cons, <- (H x) by now left.
  rewrite IH by (intros y Hy; apply H; now right). reflexivity.
Qed.

Lemma stage_forget_shift (to_dt : list string -> string -> option Z)
    (c : list string) (rows rows' : list (Row string)) :
  map forget_shift rows = map forget_shift rows' ->
  map forget_shift (stage to_dt c rows)
  = map forget_shift (stage to_dt c rows').
Proof.
  revert rows'. induction rows as [|x r IH]; intros [|x' r'] H;
    try discriminate; [reflexivity|].
  cbn [map] in H. injection H as Hd Hm Hw Hc Hr.
  rewrite !stage_cons, <- Hd, <- Hm.
  destruct (to_dt c (work_date x)); [|apply IH; exact Hr].
  destruct (Str.mem (machine x) allowed_machines); [|apply IH; exact Hr].
  cbn [map]. rewrite (IH r' Hr). unfold forget_shift, set_date.
  cbn [work_date machine worked_qty wpc_qty]. congruence.
Qed.

(** X4. The report does not depend on the order of the loaded rows, as long
    as the date parser answers the same on each cell in both orders. *)
Theorem transform_row_order (to_dt : list string -> string -> option Z)
    (rows rows' : list (Row string)) :
  Permutation rows rows' ->
  (forall x, In x rows ->
     to_dt (map work_date rows) (work_date x)
     = to_dt (map work_date rows') (work_date x)) ->
  transform to_dt rows = transform to_dt rows'.
Proof.
  intros Hp Hctx. apply transform_ext. rewrite !df_filtered_stage.
  rewrite (stage_context _ _ _ _ Hctx).
  apply Permutation_map, stage_perm. exact Hp.
Qed.

Lemma transform_row_order_witness :
  Permutation sample_rows (rev sample_rows)
  /\ transform Iso.to_datetime sample_rows
     = transform Iso.to_datetime (rev sample_rows).
Proof.
  assert (Hp : Permutation sample_rows (rev sample_rows))
    by apply Permutation_rev.
  split; [exact Hp|].
  apply (transform_row_order Iso.to_datetime sample_rows (rev sample_rows) Hp).
  intros x _. reflexivity.
Defined.

(** X5. A row whose date does not parse, or whose machine is outside the
    allow-list, is inert: the report is the one of the table without it, as
    long as the date parser answers the same on the other cells. *)
Theorem transform_dropped_row (to_dt : list string -> string -> option Z)
    (l1 l2 : list (Row string)) (x : Row string) :
  to_dt (map work_date (l1 ++ x :: l2)) (work_date x) = None
  \/ ~ In (machine x) allowed_machines ->
  (forall y, In y (l1 ++ l2) ->
     to_dt (map work_date (l1 ++ x :: l2)) (work_date y)
     = to_dt (map work_date (l1 ++ l2)) (work_date y)) ->
  transform to_dt (l1 ++ x :: l2) = transform to_dt (l1 ++ l2).
Proof.
  intros Hx Hctx. apply transform_ext. rewrite !df_filtered_stage.
  rewrite <- (stage_context _ _ _ _ Hctx).
  set (c := map work_date (l1 ++ x :: l2)) in *.
  rewrite !stage_app, stage_cons.
  destruct Hx as [-> | Hm]; [apply Permutation_refl|].
  apply mem_false_In in Hm. rewrite Hm.
  destruct (to_dt c (work_date x)); apply Permutation_refl.
Qed.

Lemma transform_dropped_row_witness :
  ~ In "B07" allowed_machines
  /\ transform Iso.to_datetime
       ([mkRow "2024-03-04" (Int 2) "A10" 40 10]
        ++ mkRow "2024-03-01" (Int 1) "B07" 10 9 :: [])
     = transform Iso.to_datetime
         ([mkRow "2024-03-04" (Int 2) "A10" 40 10] ++ []).
Proof.
  assert (Hm : ~ In "B07" allowed_machines)
    by (apply mem_false_In; vm_compute; reflexivity).
  split; [exact Hm|].
  apply (transform_dropped_row Iso.to_datetime
           [mkRow "2024-03-04" (Int 2) "A10" 40 10] []
           (mkRow "2024-03-01" (Int 1) "B07" 10 9)).
  - right. exact Hm.
  - intros y _. reflexivity.
Defined.

(** X6. The shift column is required but never read: two tables that agree
    on date, machine and the two quantities of every row give the same
    report. *)
Theorem transform_ignores_shift (to_dt : list string -> string -> option Z)
    (rows rows' : list (Row string)) :
  map forget_shift rows = map forget_shift rows' ->
  transform to_dt rows = transform to_dt rows'.
Proof.
  intro H. apply transform_ext. rewrite !df_filtered_stage.
  assert (Hcol : map work_date rows = map work_date rows').
  { apply (f_equal (map (fun t : string * string * Z * Z =>
                           fst (fst (fst t))))) in H.
    rewrite !map_map in H. exact H. }
  rewrite <- Hcol, (stage_forget_shift _ _ _ _ H). apply Permutation_refl.
Qed.

Lemma transform_ignores_shift_witness :
  map forget_shift (example_rows "D" "N" "D" "N")
  = map forget_shift (example_rows "1" "2" "3" "4")
  /\ transform Iso.to_datetime (example_rows "D" "N" "D" "N")
     = transform Iso.to_datetime (example_rows "1" "2" "3" "4").
Proof.
  assert (H : map forget_shift (example_rows "D" "N" "D" "N")
              = map forget_shift (example_rows "1" "2" "3" "4"))
    by reflexivity.
  split; [exact H|].
  exact (transform_ignores_shift Iso.to_datetime _ _ H).
Defined.

(** ** Columns that are not consumed *)

Lemma get_other_column (df1 df2 : DataFrame) (n k : string) (s : Series) :
  k <> n ->
  Frame.get (df1 ++ (n, s) :: df2) k = Frame.get (df1 ++ df2) k.
Proof.
  intro Hk. induction df1 as [|[n1 s1] r IH]; simpl.
  - destruct (String.eqb_spec n k); [congruence | reflexivity].
  - rewrite IH. reflexivity.
Qed.

Lemma mem_other_column (df1 df2 : DataFrame) (n k : string) (s : Series) :
  k <> n ->
  Str.mem k (Frame.columns (df1 ++ (n, s) :: df2))
  = Str.mem k (Frame.columns (df1 ++ df2)).
Proof.
  intro Hk. unfold Frame.columns. induction df1 as [|[n1 s1] r IH]; simpl.
  - destruct (String.eqb_spec k n); [congruence | reflexivity].
  - rewrite IH. reflexivity.
Qed.

Lemma getitem_other_column (df1 df2 : DataFrame) (n : string) (s : Series)
    (keys : list string) :
  ~ In n keys ->
  Frame.getitem (df1 ++ (n, s) :: df2) keys = Frame.getitem (df1 ++ df2) keys.
Proof.
  intro Hn. unfold Frame.getitem.
  assert (Hne : forall k, In k keys -> k <> n) by (intros k Hk ->; auto).
  rewrite (filter_ext_in
             (fun k => negb (Str.mem k (Frame.columns (df1 ++ (n, s) :: df2))))
             (fun k => negb (Str.mem k (Frame.columns (df1 ++ df2))))).
  - destruct (filter _ keys); [|reflexivity]. f_equal.
    clear Hn. induction keys as [|k r IH]; [reflexivity|]. cbn [flat_map].
    rewrite get_other_column by (apply Hne; now left).
    rewrite IH by (intros x Hx; apply Hne; now right). reflexivity.
  - intros k Hk. rewrite mem_other_column by auto. reflexivity.
Qed.

(** X7. A column whose label is not one of the five required ones is
    ignored, wherever it stands in the table. *)
Theorem pipeline_ignores_other_columns
    (to_dt : list string -> string -> option Z)
    (df1 df2 : DataFrame) (n : string) (s : Series) :
  ~ In n ["Work date"; "Shift"; "Machine"; "Q`ty"; "WPCS Qty"] ->
  pipeline to_dt (df1 ++ (n, s) :: df2) = pipeline to_dt (df1 ++ df2).
Proof.
  intro Hn. unfold pipeline, selected_rows, df_selected.
  rewrite (getitem_other_column df1 df2 n s required_columns Hn).
  reflexivity.
Qed.

Lemma pipeline_ignores_other_columns_witness :
  ~ In "Line" ["Work date"; "Shift"; "Machine"; "Q`ty"; "WPCS Qty"]
  /\ pipeline Iso.to_datetime
       ([] ++ ("Line", Object ["L1"; "L1"; "L1"; "L2"; "L2"; "L2"; "L3"])
           :: tl sample_table)
     = pipeline Iso.to_datetime ([] ++ tl sample_table).
Proof.
  assert (Hn : ~ In "Line" ["Work date"; "Shift"; "Machine"; "Q`ty";
                            "WPCS Qty"]).
  { simpl. intros [E | [E | [E | [E | [E | []]]]]]; discriminate. }
  split; [exact Hn|].
  exact (pipeline_ignores_other_columns Iso.to_datetime [] (tl sample_table)
           "Line" (Object ["L1"; "L1"; "L1"; "L2"; "L2"; "L2"; "L3"]) Hn).
Defined.

(** * Further properties of the loader and of a run *)

Lemma file_ext_dotless (p : string) :
  Str.has_char "." p = false -> file_ext p = Str.lower p.
Proof.
  intro H. unfold file_ext. rewrite (split_no_sep _ _ H). reflexivity.
Qed.

(** X8. A path without a dot is judged by its whole text: it is rejected,
    with no file read, unless it is [xlsx], [xls] or [csv] up to case, and
    the path [csv] itself is read as delimited text. *)
Theorem dotless_path (env : Env) (input_file output_file : string) :
  Str.has_char "." input_file = false ->
  (Str.mem (Str.lower input_file) ["xlsx"; "xls"; "csv"] = false ->
   generate_report env input_file output_file
   = [ShowError (ValueError unsupported)])
  /\ (Str.lower input_file = "csv" ->
      load env input_file = ([ReadCsv input_file], read_csv env input_file)).
Proof.
  intro Hdot. pose proof (file_ext_dotless _ Hdot) as Hext. split.
  - intro H. unfold generate_report, body, prepare, load. rewrite Hext.
    simpl in H. apply orb_false_iff in H. destruct H as [Ha H].
    apply orb_false_iff in H. destruct H as [Hb H].
    apply orb_false_iff in H. destruct H as [Hc _].
    simpl. rewrite Ha, Hb, Hc. reflexivity.
  - intro H. unfold load. rewrite Hext, H. simpl. unfold bind, emit, lift.
    destruct (read_csv env input_file); reflexivity.
Qed.

Lemma dotless_path_witness :
  Str.has_char "." "march_export" = false
  /\ generate_report sample_env "march_export" "out.xlsx"
     = [ShowError (ValueError unsupported)].
Proof.
  assert (H : Str.has_char "." "march_export" = false) by reflexivity.
  split; [exact H|].
  apply (proj1 (dotless_path sample_env "march_export" "out.xlsx" H)).
  reflexivity.
Defined.

(** The traces of a run. *)
Lemma generate_report_shape (env : Env) (input_file output_file : string) :
  exists pre,
    (pre = [] \/ pre = [ReadExcel input_file] \/ pre = [ReadCsv input_file])
    /\ ((exists e,
           generate_report env input_file output_file = pre ++ [ShowError e])
        \/ (exists e,
              generate_report env input_file output_file
              = pre ++ [WritePartial output_file; ShowError e])
        \/ (exists r e,
              generate_report env input_file output_file
              = pre ++ [WriteExcel output_file r; LoadWorkbook output_file;
                        ShowError e])
        \/ (exists r,
              generate_report env input_file output_file
              = pre ++ [WriteExcel output_file r; LoadWorkbook output_file;
                        SaveWorkbook output_file r; ShowInfo output_file])).
Proof.
  assert (Hpre : exists pre,
             (pre = [] \/ pre = [ReadExcel input_file]
              \/ pre = [ReadCsv input_file])
             /\ fst (prepare env input_file) = pre).
  { unfold prepare, load.
    destruct (Str.mem (file_ext input_file) ["xlsx"; "xls"]).
    - exists [ReadExcel input_file]. split; [auto|].
      unfold bind, emit, lift. destruct (read_excel env input_file) as [e|df];
        [reflexivity|].
      destruct (pipeline (to_datetime env) df); reflexivity.
    - destruct (String.eqb (file_ext input_file) "csv").
      + exists [ReadCsv input_file]. split; [auto|].
        unfold bind, emit, lift. destruct (read_csv env input_file) as [e|df];
          [reflexivity|].
        destruct (pipeline (to_datetime env) df); reflexivity.
      + exists []. split; [auto | reflexivity]. }
  destruct Hpre as (pre & Hcase & Hfst). exists pre. split; [exact Hcase|].
  unfold generate_report, body.
  destruct (prepare env input_file) as [l [e|r]]; cbn [fst] in Hfst; subst l.
  - left. exists e. reflexivity.
  - unfold render, bind, attempt, emit, raise, ret.
    destruct (to_excel env output_file r) as [[e1 [|]]|];
      [| |destruct (load_workbook env output_file) as [e2|];
          [|destruct (save env output_file r) as [e3|]]];
      cbn [app]; rewrite ?app_nil_r, <- ?app_assoc.
    + right. left. exists e1. reflexivity.
    + left. exists e1. reflexivity.
    + right. right. left. exists r, e2. reflexivity.
    + right. right. left. exists r, e3. reflexivity.
    + right. right. right. exists r. reflexivity.
Qed.

(** X9. A run reads at most one file, the input path, and before anything
    else; it writes, reloads and saves no path but the output path; and it
    names the output path in its success message. *)
Theorem run_touches_only_its_paths (env : Env)
    (input_file output_file : string) :
  (forall ev, In ev (generate_report env input_file output_file) ->
     match ev with
     | ReadExcel p | ReadCsv p => p = input_file
     | WriteExcel p _ | WritePartial p | LoadWorkbook p | SaveWorkbook p _
     | ShowInfo p => p = output_file
     | ShowError _ => True
     end)
  /\ (List.length
        (filter is_read (generate_report env input_file output_file))
      <= 1)%nat
  /\ (forall ev, In ev (tl (generate_report env input_file output_file)) ->
        is_read ev = false).
Proof.
  destruct (generate_report_shape env input_file output_file)
    as (pre & Hpre & Hlog).
  destruct Hpre as [-> | [-> | ->]];
    destruct Hlog as [(e & ->) | [(e & ->) | [(r & e & ->) | (r & ->)]]];
    (split; [|split]);
    try (cbn; lia);
    intros ev Hin; cbn in Hin;
    repeat (destruct Hin as [<- | Hin]; [try reflexivity; exact I|]);
    try contradiction.
Qed.

(** * The window *)

Lemma run_report_one_message (env : Env) (g : Gui) :
  List.length (filter is_message (run_report env g)) = 1%nat.
Proof.
  unfold run_report.
  destruct (is_empty (input_entry g) || is_empty (output_entry g));
    [reflexivity|].
  destruct (generate_report_shape env (input_entry g) (output_entry g))
    as (pre & Hpre & Hlog).
  destruct Hpre as [-> | [-> | ->]];
    destruct Hlog as [(e & ->) | [(e & ->) | [(r & e & ->) | (r & ->)]]]; reflexivity.
Qed.

Lemma session_cons (a : action) (acts : list action) (g : Gui) :
  session (a :: acts) g
  = (fst (session acts (fst (press a g))),
     snd (press a g) ++ snd (session acts (fst (press a g)))).
Proof.
  cbn [session]. destruct (press a g) as [g1 l1]. cbn [fst snd].
  destruct (session acts g1); reflexivity.
Qed.

(** X10. In any sequence of button presses, every press on Generate shows
    exactly one message box and the two Browse buttons show none. *)
Theorem one_message_per_generate (acts : list action) (g : Gui) :
  List.length (filter is_message (snd (session acts g)))
  = List.length (filter is_generate acts).
Proof.
  revert g. induction acts as [|a r IH]; intro g; [reflexivity|].
  rewrite session_cons. cbn [snd]. rewrite filter_app, length_app, IH.
  destruct a as [p | p | env]; cbn [press snd filter is_generate];
    [reflexivity | reflexivity |].
  rewrite run_report_one_message. reflexivity.
Qed.

Lemma press_keeps_empty_input (a : action) (g : Gui) :
  (forall p, a = BrowseInput p -> p = EmptyString) ->
  input_entry g = EmptyString ->
  input_entry (fst (press a g)) = EmptyString.
Proof.
  intros Ha Hg. destruct a as [p | p | env]; cbn [press fst].
  - rewrite (Ha p eq_refl). exact Hg.
  - unfold select_output_file. destruct (is_empty p); exact Hg.
  - exact Hg.
Qed.

Lemma press_keeps_empty_output (a : action) (g : Gui) :
  (forall p, a = BrowseOutput p -> p = EmptyString) ->
  output_entry g = EmptyString ->
  output_entry (fst (press a g)) = EmptyString.
Proof.
  intros Ha Hg. destruct a as [p | p | env]; cbn [press fst].
  - unfold select_input_file. destruct (is_empty p); exact Hg.
  - rewrite (Ha p eq_refl). exact Hg.
  - exact Hg.
Qed.

Lemma press_warns (a : action) (g : Gui) :
  input_entry g = EmptyString \/ output_entry g = EmptyString ->
  forall ev, In ev (snd (press a g)) -> ev = ShowWarning warning.
Proof.
  intros Hg ev. destruct a as [p | p | env]; cbn [press snd];
    [intros [] | intros [] |].
  unfold run_report.
  replace (is_empty (input_entry g) || is_empty (output_entry g)) with true.
  - intros [<- | []]. reflexivity.
  - destruct Hg as [-> | ->]; [reflexivity | apply eq_sym, orb_true_r].
Qed.

(** X11. As long as no input file, or no output file, has been chosen
    (every dialog of that kind was cancelled), pressing Generate only shows
    the warning: no file is read or written. *)
Theorem generate_needs_both_paths (acts : list action) :
  (forall p, In (BrowseInput p) acts -> p = EmptyString)
  \/ (forall p, In (BrowseOutput p) acts -> p = EmptyString) ->
  forall ev, In ev (snd (session acts initial_gui)) ->
             ev = ShowWarning warning.
Proof.
  intro H.
  assert (Hgen : forall g,
             (input_entry g = EmptyString
              /\ forall p, In (BrowseInput p) acts -> p = EmptyString)
             \/ (output_entry g = EmptyString
                 /\ forall p, In (BrowseOutput p) acts -> p = EmptyString) ->
             forall ev, In ev (snd (session acts g)) ->
                        ev = ShowWarning warning).
  { clear H. induction acts as [|a r IH]; intros g Hg ev; [intros []|].
    rewrite session_cons. cbn [snd]. intro Hin. apply in_app_or in Hin.
    destruct Hin as [Hin | Hin].
    - revert ev Hin. apply press_warns. tauto.
    - revert ev Hin. apply IH. destruct Hg as [[Hg Ha] | [Hg Ha]].
      + left. split.
        * apply press_keeps_empty_input; [|exact Hg].
          intros p ->. apply Ha. now left.
        * intros p Hp. apply Ha. now right.
      + right. split.
        * apply press_keeps_empty_output; [|exact Hg].
          intros p ->. apply Ha. now left.
        * intros p Hp. apply Ha. now right. }
  apply Hgen. destruct H as [H | H]; [left | right]; auto.
Qed.

Lemma generate_needs_both_paths_witness :
  (forall p,
     In (BrowseOutput p)
        [BrowseInput "march.csv"; BrowseOutput EmptyString;
         Generate sample_env] ->
     p = EmptyString)
  /\ forall ev,
       In ev (snd (session [BrowseInput "march.csv"; BrowseOutput EmptyString;
                            Generate sample_env] initial_gui)) ->
       ev = ShowWarning warning.
Proof.
  assert (H : forall p,
            In (BrowseOutput p)
               [BrowseInput "march.csv"; BrowseOutput EmptyString;
                Generate sample_env] ->
            p = EmptyString).
  { intros p [E | [E | [E | []]]]; try discriminate.
    injection E as <-. reflexivity. }
  split; [exact H|].
  exact (generate_needs_both_paths _ (or_intror H)).
Defined.

Lemma press_keeps_filled (a : action) (g : Gui) :
  is_empty (input_entry g) = false /\ is_empty (output_entry g) = false ->
  is_empty (input_entry (fst (press a g))) = false
  /\ is_empty (output_entry (fst (press a g))) = false.
Proof.
  intros [Hi Ho]. destruct a as [p | p | env]; cbn [press fst]; auto.
  - unfold select_input_file. destruct (is_empty p) eqn:E; cbn; auto.
  - unfold select_output_file. destruct (is_empty p) eqn:E; cbn; auto.
Qed.

(** X12. A cancelled dialog never clears a field: once both fields are
    filled they stay filled, and no later press on Generate shows the
    warning. *)
Theorem filled_fields_stay_filled (acts : list action) (g : Gui) :
  is_empty (input_entry g) = false ->
  is_empty (output_entry g) = false ->
  (is_empty (input_entry (fst (session acts g))) = false
   /\ is_empty (output_entry (fst (session acts g))) = false)
  /\ forall msg, ~ In (ShowWarning msg) (snd (session acts g)).
Proof.
  revert g. induction acts as [|a r IH]; intros g Hi Ho.
  - cbn. auto.
  - rewrite session_cons. cbn [fst snd].
    destruct (press_keeps_filled a g (conj Hi Ho)) as [Hi' Ho'].
    destruct (IH _ Hi' Ho') as [Hfill Hwarn]. split; [exact Hfill|].
    intros msg Hin. apply in_app_or in Hin. destruct Hin as [Hin | Hin];
      [|exact (Hwarn msg Hin)].
    destruct a as [p | p | env]; cbn [press snd] in Hin; try contradiction.
    unfold run_report in Hin. rewrite Hi, Ho in Hin. cbn [orb] in Hin.
    apply in_map_iff in Hin. destruct Hin as (ev & E & _). discriminate.
Qed.

Lemma filled_fields_stay_filled_witness :
  is_empty (input_entry (mkGui "march.csv" "out.xlsx")) = false
  /\ is_empty (output_entry (mkGui "march.csv" "out.xlsx")) = false
  /\ forall msg,
       ~ In (ShowWarning msg)
            (snd (session [BrowseInput EmptyString; Generate sample_env]
                          (mkGui "march.csv" "out.xlsx"))).
Proof.
  split; [reflexivity|]. split; [reflexivity|].
  exact (proj2 (filled_fields_stay_filled
                  [BrowseInput EmptyString; Generate sample_env]
                  (mkGui "march.csv" "out.xlsx") eq_refl eq_refl)).
Defined.

(** * The sheet *)

Local Open Scope nat_scope.

Lemma In_grid (rows cols : list nat) (r c : nat) :
  In (r, c) (grid rows cols) <-> In r rows /\ In c cols.
Proof.
  unfold grid. rewrite in_flat_map. split.
  - intros (x & Hx & Hin). apply in_map_iff in Hin.
    destruct Hin as (y & E & Hy). injection E as <- <-. auto.
  - intros [Hr Hc]. exists r. split; [exact Hr|]. apply in_map. exact Hc.
Qed.

Lemma NoDup_grid (rows cols : list nat) :
  NoDup rows -> NoDup cols -> NoDup (grid rows cols).
Proof.
  intros Hr Hc. unfold grid.
  induction Hr as [|r rs Hnin Hnd IH]; simpl; [constructor|].
  apply NoDup_app.
  - clear -Hc. induction Hc as [|c cs Hnin Hnd IH]; simpl; constructor;
      [|exact IH].
    intro H. apply in_map_iff in H. destruct H as (y & E & Hy).
    injection E as <-. auto.
  - exact IH.
  - intros [r' c'] H1 H2. apply in_map_iff in H1.
    destruct H1 as (y & E & _). injection E as <- <-.
    apply (In_grid rs cols r y) in H2. tauto.
Qed.

Lemma combine_seq_fst {A} (l : list A) (a : nat) :
  map fst (combine (seq a (List.length l)) l) = seq a (List.length l).
Proof.
  revert a. induction l as [|x r IH]; intro a; [reflexivity|].
  simpl. rewrite IH. reflexivity.
Qed.

Lemma In_combine_seq {A} (l : list A) (a i : nat) (x : A) :
  nth_error l i = Some x -> In (a + i, x) (combine (seq a (List.length l)) l).
Proof.
  revert a i. induction l as [|y r IH]; intros a [|i] H; try discriminate.
  - injection H as <-. rewrite Nat.add_0_r. now left.
  - right. rewrite Nat.add_succ_r. apply (IH (S a)). exact H.
Qed.

Lemma place_row_pos (row : nat) (vs : list CellValue) :
  map cell_pos (place_row row vs)
  = map (fun i => (row, S i)) (seq 0 (List.length vs)).
Proof.
  unfold place_row, cell_pos. rewrite map_map. cbn [fst].
  rewrite <- (combine_seq_fst vs 0) at 2. rewrite map_map. reflexivity.
Qed.

Lemma place_column_pos (first_row col : nat) (vs : list CellValue) :
  map cell_pos (place_column first_row col vs)
  = map (fun i => (first_row + i, col)) (seq 0 (List.length vs)).
Proof.
  unfold place_column, cell_pos. rewrite map_map. cbn [fst].
  rewrite <- (combine_seq_fst vs 0) at 2. rewrite map_map. reflexivity.
Qed.

Lemma map_flat_map {A B C} (g : B -> C) (f : A -> list B) (l : list A) :
  map g (flat_map f l) = flat_map (fun x => map g (f x)) l.
Proof.
  induction l as [|x r IH]; [reflexivity|].
  cbn [flat_map]. rewrite map_app, IH. reflexivity.
Qed.

(** The cells of one table, as a set. *)
Lemma In_to_excel_cells_pos (header : list string)
    (data : list (list CellValue)) (startrow row col : nat) :
  In (row, col) (map cell_pos (to_excel_cells header data startrow)) <->
  startrow + 1 <= row <= startrow + 1 + List.length data
  /\ 1 <= col <= List.length header.
Proof.
  unfold to_excel_cells.
  rewrite map_app, in_app_iff, place_row_pos, map_flat_map, in_flat_map,
    in_map_iff, length_map.
  split.
  - intros [(i & E & Hi) | (j & Hj & Hin)].
    + injection E as <- <-. apply in_seq in Hi. lia.
    + rewrite place_column_pos in Hin. apply in_map_iff in Hin.
      destruct Hin as (i & E & Hi). injection E as <- <-.
      unfold column in Hi. rewrite length_map in Hi.
      apply in_seq in Hi, Hj. lia.
  - intros [Hr Hc]. destruct (Nat.eq_dec row (startrow + 1)) as [-> | Hne].
    + left. exists (col - 1). split; [f_equal; lia | apply in_seq; lia].
    + right. exists (col - 1). split; [apply in_seq; lia|].
      rewrite place_column_pos. apply in_map_iff.
      exists (row - (startrow + 2)). split; [f_equal; lia|].
      unfold column. rewrite length_map. apply in_seq. lia.
Qed.

Lemma NoDup_map_inj {A B} (f : A -> B) (l : list A) :
  (forall x y, f x = f y -> x = y) -> NoDup l -> NoDup (map f l).
Proof.
  intros Hf. induction 1 as [|x r Hnin Hnd IH]; simpl; constructor;
    [|exact IH].
  intro H. apply in_map_iff in H. destruct H as (y & E & Hy).
  apply Hf in E. subst. auto.
Qed.

Lemma NoDup_flat_map {A B} (f : A -> list B) (l : list A) :
  NoDup l -> (forall x, NoDup (f x)) ->
  (forall x y b, In b (f x) -> In b (f y) -> x = y) ->
  NoDup (flat_map f l).
Proof.
  intros Hl Hf Hdis. induction Hl as [|x r Hnin Hnd IH]; simpl;
    [constructor|].
  apply NoDup_app; [apply Hf | exact IH|].
  intros b Hb Hin. apply in_flat_map in Hin. destruct Hin as (y & Hy & Hby).
  rewrite (Hdis x y b Hb Hby) in Hnin. auto.
Qed.

Lemma to_excel_cells_NoDup (header : list string)
    (data : list (list CellValue)) (startrow : nat) :
  NoDup (map cell_pos (to_excel_cells header data startrow)).
Proof.
  unfold to_excel_cells. rewrite map_app, place_row_pos, map_flat_map.
  apply NoDup_app.
  - apply NoDup_map_inj; [|apply seq_NoDup].
    intros x y E. injection E. auto.
  - apply NoDup_flat_map; [apply seq_NoDup | |].
    + intro j. rewrite place_column_pos.
      apply NoDup_map_inj; [|apply seq_NoDup].
      intros x y E. injection E. lia.
    + intros x y [r c] Hx Hy. rewrite place_column_pos in Hx, Hy.
      apply in_map_iff in Hx, Hy.
      destruct Hx as (i & E & _), Hy as (i' & E' & _).
      injection E as _ <-. injection E' as _ E'. lia.
  - intros [r c] H1 H2. apply in_map_iff in H1. destruct H1 as (i & E & _).
    injection E as <- <-. apply in_flat_map in H2.
    destruct H2 as (j & _ & Hin). rewrite place_column_pos in Hin.
    apply in_map_iff in Hin. destruct Hin as (i' & E & _).
    injection E as E _. lia.
Qed.

Lemma In_written_sheet_pos (rep : Report) (row col : nat) :
  In (row, col) (map cell_pos (written_sheet rep)) <->
  (1 <= row <= List.length (summary_df rep) + 1 /\ 1 <= col <= 5)
  \/ (List.length (summary_df rep) + 3 <= row
        <= List.length (summary_df rep) + 4
      /\ 1 <= col <= 3).
Proof.
  unfold written_sheet, start_row_total.
  rewrite map_app, in_app_iff, !In_to_excel_cells_pos, length_map.
  cbn [List.length summary_columns total_columns]. lia.
Qed.

Lemma written_sheet_NoDup (rep : Report) :
  NoDup (map cell_pos (written_sheet rep)).
Proof.
  unfold written_sheet. rewrite map_app. apply NoDup_app.
  - apply to_excel_cells_NoDup.
  - apply to_excel_cells_NoDup.
  - intros [r c] H1 H2. apply In_to_excel_cells_pos in H1, H2.
    rewrite length_map in H1. unfold start_row_total in H2. lia.
Qed.

Lemma styling_pos (n : nat) :
  map fst (styling n)
  = grid (seq 1 (n + 1)) (seq 1 5) ++ grid (seq (n + 3) 2) (seq 1 3).
Proof.
  unfold styling, iter_rows, range. cbv zeta.
  rewrite !map_app, !map_map. cbn [fst List.length summary_columns
    total_columns].
  replace (1 + n + 1 - 2) with n by lia.
  replace (n + 3 + 1 + 1 - (n + 3 + 1)) with 1 by lia.
  replace (n + 3 + 1) with (S (n + 3)) by lia.
  replace (n + 1) with (S n) by lia. cbn [seq Nat.add Nat.sub].
  unfold grid. cbn [flat_map map]. rewrite !app_nil_r, !map_id.
  reflexivity.
Qed.

(** X13. The machine-level table occupies sheet rows 1 to N+1 and columns
    1 to 5, the total table rows N+3 and N+4 and columns 1 to 3, where N is
    the number of machine rows; nothing else is written, so row N+2 is
    blank, and no cell is written twice. *)
Theorem sheet_layout (rep : Report) (row col : nat) :
  (In (row, col) (map cell_pos (written_sheet rep)) <->
   (1 <= row <= List.length (summary_df rep) + 1 /\ 1 <= col <= 5)
   \/ (List.length (summary_df rep) + 3 <= row
         <= List.length (summary_df rep) + 4
       /\ 1 <= col <= 3))
  /\ NoDup (map cell_pos (written_sheet rep)).
Proof.
  split; [apply In_written_sheet_pos | apply written_sheet_NoDup].
Qed.

(** X14. The styling loops visit exactly the cells that were written, each
    of them once: the header style goes to the two header rows (1 and N+3)
    and the data style to the other written cells; the blank row and the
    cells beside the total table are not touched. *)
Theorem styling_covers_written_cells (rep : Report) :
  (forall row col,
     In (row, col) (map fst (styling (List.length (summary_df rep)))) <->
     In (row, col) (map cell_pos (written_sheet rep)))
  /\ NoDup (map fst (styling (List.length (summary_df rep))))
  /\ forall row col st,
       In (row, col, st) (styling (List.length (summary_df rep))) ->
       st = (if Nat.eqb row 1
                || Nat.eqb row (List.length (summary_df rep) + 3)
             then header_style else data_style).
Proof.
  split; [|split].
  - intros row col.
    rewrite In_written_sheet_pos, styling_pos, in_app_iff, !In_grid, !in_seq.
    lia.
  - rewrite styling_pos. apply NoDup_app.
    + apply NoDup_grid; apply seq_NoDup.
    + apply NoDup_grid; apply seq_NoDup.
    + intros [r c] H1 H2. apply In_grid in H1, H2.
      destruct H1 as [H1 _], H2 as [H2 _]. apply in_seq in H1, H2. lia.
  - intros row col st. unfold styling. cbv zeta.
    set (n := List.length (summary_df rep)).
    rewrite !in_app_iff, !in_map_iff.
    intros [(c & E & _) | [([r c] & E & Hp) | [(c & E & _)
                                              | ([r c] & E & Hp)]]];
      injection E as <- <- <-.
    + reflexivity.
    + apply In_grid in Hp. destruct Hp as [Hr _]. apply in_seq in Hr.
      destruct (Nat.eqb_spec r 1); [lia|].
      destruct (Nat.eqb_spec r (n + 3)); [lia | reflexivity].
    + rewrite Nat.eqb_refl, orb_true_r. reflexivity.
    + apply In_grid in Hp. destruct Hp as [Hr _]. apply in_seq in Hr.
      destruct (Nat.eqb_spec r 1); [lia|].
      destruct (Nat.eqb_spec r (n + 3)); [lia | reflexivity].
Qed.

Lemma In_place_row (row j : nat) (vs : list CellValue) (v : CellValue) :
  nth_error vs j = Some v -> In (row, S j, v) (place_row row vs).
Proof.
  intro H. unfold place_row.
  apply (in_map (fun iv => (row, S (fst iv), snd iv)) _ (j, v)).
  apply (In_combine_seq vs 0 j v H).
Qed.

Lemma In_place_column (first_row col i : nat) (vs : list CellValue)
    (v : CellValue) :
  nth_error vs i = Some v ->
  In (first_row + i, col, v) (place_column first_row col vs).
Proof.
  intro H. unfold place_column.
  apply (in_map (fun iv => (first_row + fst iv, col, snd iv)) _ (i, v)).
  apply (In_combine_seq vs 0 i v H).
Qed.

Lemma In_to_excel_header (header : list string)
    (data : list (list CellValue)) (startrow j : nat) (label : string) :
  nth_error header j = Some label ->
  In (startrow + 1, j + 1, CText label) (to_excel_cells header data startrow).
Proof.
  intro H. unfold to_excel_cells. apply in_or_app. left.
  rewrite Nat.add_1_r with (n := j). apply In_place_row.
  apply map_nth_error. exact H.
Qed.

Lemma In_to_excel_data (header : list string) (data : list (list CellValue))
    (startrow i j : nat) (vs : list CellValue) (v : CellValue) :
  j < List.length header ->
  nth_error data i = Some vs -> nth_error vs j = Some v ->
  In (startrow + 2 + i, j + 1, v) (to_excel_cells header data startrow).
Proof.
  intros Hlt Hi Hj. unfold to_excel_cells. apply in_or_app. right.
  apply in_flat_map. exists j. split; [apply in_seq; lia|].
  rewrite Nat.add_1_r with (n := j). apply In_place_column.
  unfold column.
  rewrite (map_nth_error (fun vs => nth j vs (CText EmptyString)) _ _ Hi).
  f_equal. apply nth_error_nth. exact Hj.
Qed.

Lemma cell_value_In (sheet : list Cell) (row col : nat) (v : CellValue) :
  NoDup (map cell_pos sheet) -> In (row, col, v) sheet ->
  cell_value sheet row col = Some v.
Proof.
  unfold cell_value. induction sheet as [|[[r c] v'] rest IH]; [intros _ []|].
  cbn [map cell_pos fst find snd]. intros Hnd Hin.
  apply NoDup_cons_iff in Hnd. destruct Hnd as [Hnin Hnd].
  destruct (Nat.eqb_spec r row) as [-> | Hr];
    [destruct (Nat.eqb_spec c col) as [-> | Hc]|]; cbn [andb].
  - destruct Hin as [E | Hin]; [injection E as ->; reflexivity|].
    destruct Hnin. apply (in_map cell_pos) in Hin. exact Hin.
  - destruct Hin as [E | Hin]; [injection E; intros; congruence|]. auto.
  - destruct Hin as [E | Hin]; [injection E; intros; congruence|]. auto.
Qed.

Lemma cell_value_blank (sheet : list Cell) (row col : nat) :
  ~ In (row, col) (map cell_pos sheet) -> cell_value sheet row col = None.
Proof.
  intro H. unfold cell_value.
  destruct (find (fun c => Nat.eqb (fst (fst c)) row
                           && Nat.eqb (snd (fst c)) col) sheet)
    as [[[r c] v]|] eqn:E; [|reflexivity].
  apply find_some in E. destruct E as [Hin Hm]. cbn [fst snd] in Hm.
  apply andb_true_iff in Hm. destruct Hm as [Hr Hc].
  apply Nat.eqb_eq in Hr, Hc. subst. destruct H.
  apply (in_map cell_pos) in Hin. exact Hin.
Qed.

(** X15. Where the values land: the labels on row 1, the i-th machine row
    on sheet row i+2 (machine, last work date, worked quantity, WPC
    quantity, WPCS %), nothing on row N+2, the total labels on row N+3 and
    the three totals on row N+4. *)
Theorem sheet_contents (rep : Report) :
  let sheet := written_sheet rep in
  let n := List.length (summary_df rep) in
  (forall j label, nth_error summary_columns j = Some label ->
     cell_value sheet 1 (j + 1) = Some (CText label))
  /\ (forall i r, nth_error (summary_df rep) i = Some r ->
        cell_value sheet (i + 2) 1 = Some (CText (ms_machine r))
        /\ cell_value sheet (i + 2) 2 = Some (CDate (last_work_date r))
        /\ cell_value sheet (i + 2) 3 = Some (CInt (ms_worked_qty r))
        /\ cell_value sheet (i + 2) 4 = Some (CInt (ms_wpc_qty r))
        /\ cell_value sheet (i + 2) 5 = Some (CFloat (wpcs_pct r)))
  /\ (forall col, cell_value sheet (n + 2) col = None)
  /\ (forall j label, nth_error total_columns j = Some label ->
        cell_value sheet (n + 3) (j + 1) = Some (CText label))
  /\ cell_value sheet (n + 4) 1
     = Some (CInt (total_worked_qty (summary_total rep)))
  /\ cell_value sheet (n + 4) 2
     = Some (CInt (total_wpc_qty (summary_total rep)))
  /\ cell_value sheet (n + 4) 3
     = Some (CFloat (total_wpcs_percent (summary_total rep))).
Proof.
  cbv zeta. pose proof (written_sheet_NoDup rep) as Hnd.
  assert (Hdata : forall i r j v,
            nth_error (summary_df rep) i = Some r ->
            nth_error (summary_cells r) j = Some v ->
            cell_value (written_sheet rep) (i + 2) (j + 1) = Some v).
  { intros i r j v Hi Hj. apply cell_value_In; [exact Hnd|].
    unfold written_sheet. apply in_or_app. left.
    replace (i + 2) with (0 + 2 + i) by lia.
    apply In_to_excel_data with (vs := summary_cells r); [| |exact Hj].
    - change (List.length summary_columns)
        with (List.length (summary_cells r)).
      apply nth_error_Some. rewrite Hj. discriminate.
    - apply map_nth_error. exact Hi. }
  assert (Htot : forall j v,
            nth_error (total_cells (summary_total rep)) j = Some v ->
            cell_value (written_sheet rep)
                       (List.length (summary_df rep) + 4) (j + 1) = Some v).
  { intros j v Hj. apply cell_value_In; [exact Hnd|].
    unfold written_sheet. apply in_or_app. right.
    replace (List.length (summary_df rep) + 4)
      with (start_row_total rep + 2 + 0) by (unfold start_row_total; lia).
    apply In_to_excel_data with (vs := total_cells (summary_total rep));
      [|reflexivity | exact Hj].
    change (List.length total_columns)
      with (List.length (total_cells (summary_total rep))).
    apply nth_error_Some. rewrite Hj. discriminate. }
  split; [|split; [|split; [|split; [|split; [|split]]]]].
  - intros j label Hj. apply cell_value_In; [exact Hnd|].
    unfold written_sheet. apply in_or_app. left.
    apply (In_to_excel_header summary_columns _ 0 j label Hj).
  - intros i r Hi. repeat split.
    + apply (Hdata i r 0 _ Hi eq_refl).
    + apply (Hdata i r 1 _ Hi eq_refl).
    + apply (Hdata i r 2 _ Hi eq_refl).
    + apply (Hdata i r 3 _ Hi eq_refl).
    + apply (Hdata i r 4 _ Hi eq_refl).
  - intro col. apply cell_value_blank.
    rewrite In_written_sheet_pos. lia.
  - intros j label Hj. apply cell_value_In; [exact Hnd|].
    unfold written_sheet. apply in_or_app. right.
    replace (List.length (summary_df rep) + 3)
      with (start_row_total rep + 1) by (unfold start_row_total; lia).
    apply (In_to_excel_header total_columns _ _ j label Hj).
  - apply (Htot 0 _ eq_refl).
  - apply (Htot 1 _ eq_refl).
  - apply (Htot 2 _ eq_refl).
Qed.

(** ** Column widths *)

Lemma fold_width_ge (f : nat -> nat) (l : list nat) (init : nat) :
  init <= fold_left (fun m row => if Nat.ltb m (f row) then f row else m)
                    l init
  /\ forall x, In x l ->
       f x <= fold_left (fun m row => if Nat.ltb m (f row) then f row else m)
                        l init.
Proof.
  revert init. induction l as [|a r IH]; intro init; cbn [fold_left].
  - split; [lia | intros x []].
  - destruct (IH (if Nat.ltb init (f a) then f a else init)) as [H1 H2].
    destruct (Nat.ltb_spec init (f a)) as [Hlt | Hge].
    + split; [lia|]. intros x [<- | Hx]; [exact H1 | auto].
    + split; [exact H1|]. intros x [<- | Hx]; [lia | auto].
Qed.

Lemma column_width_ge (render : CellValue -> string) (sheet : list Cell)
    (rows col row : nat) :
  1 <= row <= rows ->
  String.length (cell_text render (cell_value sheet row col)) + 2
  <= column_width render sheet rows col.
Proof.
  intro H. unfold column_width. apply Nat.add_le_mono_r.
  apply (proj2 (fold_width_ge
                  (fun r => String.length
                              (cell_text render (cell_value sheet r col)))
                  (seq 1 rows) 0) row).
  apply in_seq. lia.
Qed.

(** X16. Each of the five columns is at least two wider than every text
    written in it, and never narrower than 6, the blank row reading [None];
    the labels alone make the widths at least 19, 16, 14, 9 and 8, whatever
    the numbers and dates read. *)
Theorem column_widths (render : CellValue -> string) (rep : Report) :
  let width := column_width render (written_sheet rep) (max_row rep) in
  (forall row col s, In (row, col, CText s) (written_sheet rep) ->
     String.length s + 2 <= width col)
  /\ (forall col, 1 <= col <= 5 -> 6 <= width col)
  /\ 19 <= width 1 /\ 16 <= width 2 /\ 14 <= width 3
  /\ 9 <= width 4 /\ 8 <= width 5.
Proof.
  cbv zeta. pose proof (written_sheet_NoDup rep) as Hnd.
  assert (Htext : forall row col s,
            In (row, col, CText s) (written_sheet rep) ->
            String.length s + 2
            <= column_width render (written_sheet rep) (max_row rep) col).
  { intros row col s Hin.
    change (String.length s)
      with (String.length (cell_text render (Some (CText s)))).
    rewrite <- (cell_value_In _ _ _ _ Hnd Hin).
    apply column_width_ge.
    apply (in_map cell_pos) in Hin. cbn [cell_pos fst] in Hin.
    rewrite In_written_sheet_pos in Hin.
    unfold max_row, start_row_total. lia. }
  assert (Hlabel : forall j label,
            nth_error summary_columns j = Some label ->
            String.length label + 2
            <= column_width render (written_sheet rep) (max_row rep) (j + 1)).
  { intros j label Hj. apply (Htext 1). unfold written_sheet.
    apply in_or_app. left.
    apply (In_to_excel_header summary_columns _ 0 j label Hj). }
  assert (Htotal : forall j label,
            nth_error total_columns j = Some label ->
            String.length label + 2
            <= column_width render (written_sheet rep) (max_row rep) (j + 1)).
  { intros j label Hj. apply (Htext (start_row_total rep + 1)).
    unfold written_sheet. apply in_or_app. right.
    apply (In_to_excel_header total_columns _ _ j label Hj). }
  split; [exact Htext|]. split; [|repeat split].
  - intros col _.
    pose proof (column_width_ge render (written_sheet rep) (max_row rep) col
                  (List.length (summary_df rep) + 2)) as H.
    rewrite cell_value_blank in H.
    + apply H. unfold max_row, start_row_total. lia.
    + rewrite In_written_sheet_pos. lia.
  - apply (Htotal 0 _ eq_refl).
  - apply (Hlabel 1 _ eq_refl).
  - apply (Htotal 2 _ eq_refl).
  - apply (Hlabel 3 _ eq_refl).
  - apply (Hlabel 4 _ eq_refl).
Qed.

Local Close Scope nat_scope.
